(** * Agape donaciones: a model of [app.py] and the properties of its handlers

    The application is a single Flask module over a SQLite file with two
    tables ([donations], [users]), a signed cookie session and two folders
    of files (uploaded photos, QR images).  Every route of [app.py] is
    embedded below as a function from a request and the state of the world
    to a response and the next state of the world.

    Conventions of the model.
    - A Python [str] and a SQLite TEXT value are a [string]; one [ascii] of
      the model stands for one character (a code point below 256).
    - A value that may be [None] / NULL is an [option].
    - A Python [dict] read with [.get] ([request.form], [request.args],
      [request.files], [session]) is a [gmap] with string keys.
    - What the code takes from outside the process (the clock, the bytes of
      the operating system's random source, the conversion SQLite applies
      to text stored in an INTEGER column) is an argument of the function
      that uses it.

    Outside the model: the cap on the size of a request
    ([MAX_CONTENT_LENGTH]), the limits of the engine (the length of a LIKE
    pattern, the 64 bits of a rowid), texts that hold the NUL character,
    which LIKE reads as the end of the text, and the failures of the file
    system. *)

From Stdlib Require Import ZArith NArith String Ascii List Lia.
From Stdlib.Floats Require Import PrimFloat.
From Stdlib.Strings Require Import Byte.
From stdpp Require Import base tactics option list strings pretty gmap sorting.

(** ** Text helpers of the Python runtime *)

Module Py.

(** [str.isspace] for one character, on the code points below 256. *)
Definition isspace (c : ascii) : bool :=
  let n := N_of_ascii c in
  ((9 <=? n) && (n <=? 13) || (28 <=? n) && (n <=? 32)
   || (n =? 133) || (n =? 160))%N.

Fixpoint lstrip (s : string) : string :=
  match s with
  | String c s' => if isspace c then lstrip s' else s
  | EmptyString => EmptyString
  end.

(** [rstrip_by p s] removes the longest suffix of characters satisfying
    [p]; it is [str.rstrip] ([bytes.rstrip]) with [p] the set to strip. *)
Fixpoint rstrip_by (p : ascii → bool) (s : string) : string :=
  match s with
  | String c s' =>
      match rstrip_by p s' with
      | EmptyString => if p c then EmptyString else String c EmptyString
      | r => String c r
      end
  | EmptyString => EmptyString
  end.

(** [s.strip()] *)
Definition strip (s : string) : string := rstrip_by isspace (lstrip s).

(** [str.lower] for one character, on the code points below 256:
    A-Z and the Latin-1 capitals (192-214, 216-222) move by 32. *)
Definition lower_char (c : ascii) : ascii :=
  let n := N_of_ascii c in
  if ((65 <=? n) && (n <=? 90) || (192 <=? n) && (n <=? 214)
      || (216 <=? n) && (n <=? 222))%N
  then ascii_of_N (n + 32) else c.

Fixpoint lower (s : string) : string :=
  match s with
  | String c s' => String (lower_char c) (lower s')
  | EmptyString => EmptyString
  end.

(** [s.rfind(c)] for a one-character needle: the index of the last
    occurrence, or -1. *)
Fixpoint rfind_from (c : ascii) (s : string) (i : Z) (found : Z) : Z :=
  match s with
  | String x s' =>
      rfind_from c s' (i + 1) (if Ascii.eqb x c then i else found)
  | EmptyString => found
  end.
Definition rfind (c : ascii) (s : string) : Z := rfind_from c s 0 (-1).

(** [s[i:j]] and [s[i:]] for indices that are not negative. *)
Fixpoint drop_str (n : nat) (s : string) : string :=
  match n, s with
  | S n', String _ s' => drop_str n' s'
  | _, _ => s
  end.
Fixpoint take_str (n : nat) (s : string) : string :=
  match n, s with
  | S n', String c s' => String c (take_str n' s')
  | _, _ => EmptyString
  end.
Definition slice (s : string) (i j : Z) : string :=
  take_str (Z.to_nat (j - i)) (drop_str (Z.to_nat i) s).
Definition slice_from (s : string) (i : Z) : string :=
  drop_str (Z.to_nat i) s.

Fixpoint any_char (p : ascii → bool) (s : string) : bool :=
  match s with
  | String c s' => p c || any_char p s'
  | EmptyString => false
  end.

(** [os.path.splitext(p)] on a POSIX system ([sep] is the slash, there is
    no [altsep]).  The loop of [genericpath._splitext] looks for a
    character other than the dot between the last separator and the last
    dot: the extension starts at the last dot only when there is one. *)
Definition splitext (p : string) : string * string :=
  let sepIndex := rfind "/" p in
  let dotIndex := rfind "." p in
  if (sepIndex <? dotIndex)%Z
     && any_char (λ c, negb (Ascii.eqb c "."))
                 (slice p (sepIndex + 1) dotIndex)
  then (slice p 0 dotIndex, slice_from p dotIndex)
  else (p, EmptyString).

(** [request.form.get(k) or 0] and friends: the truth value of a string. *)
Definition truthy (s : string) : bool :=
  match s with EmptyString => false | _ => true end.

End Py.

(** ** [secrets.token_urlsafe] *)

Module Base64.

Definition alphabet : list ascii :=
  list_ascii_of_string
    "ABCDEFGHIJKLMNOPQRSTUVWXYZabcdefghijklmnopqrstuvwxyz0123456789+/".

Definition digit (i : N) : ascii := nth (N.to_nat i) alphabet "="%char.

(** [base64.b64encode]: three bytes give four digits; one or two bytes
    left over are padded with [=]. *)
Fixpoint b64encode (bs : list byte) : list ascii :=
  match bs with
  | a :: b :: c :: rest =>
      let a := Byte.to_N a in
      let b := Byte.to_N b in
      let c := Byte.to_N c in
      digit (a / 4)
      :: digit ((a mod 4) * 16 + b / 16)
      :: digit ((b mod 16) * 4 + c / 64)
      :: digit (c mod 64)
      :: b64encode rest
  | [a; b] =>
      let a := Byte.to_N a in
      let b := Byte.to_N b in
      [digit (a / 4); digit ((a mod 4) * 16 + b / 16);
       digit ((b mod 16) * 4); "="%char]
  | [a] =>
      let a := Byte.to_N a in
      [digit (a / 4); digit ((a mod 4) * 16); "="%char; "="%char]
  | [] => []
  end%N.

(** The translation table of [urlsafe_b64encode]. *)
Definition urlsafe_char (c : ascii) : ascii :=
  if Ascii.eqb c "+" then "-"%char
  else if Ascii.eqb c "/" then "_"%char else c.

Definition urlsafe_b64encode (bs : list byte) : list ascii :=
  map urlsafe_char (b64encode bs).

(** The characters a URL carries unescaped that the tokens are made of. *)
Definition url_safe (c : ascii) : bool :=
  let n := N_of_ascii c in
  ((65 <=? n) && (n <=? 90) || (97 <=? n) && (n <=? 122)
   || (48 <=? n) && (n <=? 57) || (n =? 45) || (n =? 95))%N.

End Base64.

(** [secrets.token_urlsafe(nbytes)]:
    [base64.urlsafe_b64encode(token_bytes(nbytes)).rstrip(b'=').decode('ascii')].
    [token_bytes] is the random source of the operating system. *)
Definition token_urlsafe (token_bytes : nat → list byte) (nbytes : nat)
  : string :=
  Py.rstrip_by (λ c, Ascii.eqb c "=")
    (string_of_list_ascii (Base64.urlsafe_b64encode (token_bytes nbytes))).

(** [generate_token()] *)
Definition generate_token (token_bytes : nat → list byte) : string :=
  token_urlsafe token_bytes 12.

(** ** The SQLite engine, as far as the queries of [app.py] use it *)

Module Sql.

(** The storage classes a column of the two tables can hold. *)
Inductive Value :=
| Null
| Integer (z : Z)
| Real (x : float)
| Text (s : string).

(** SQLite folds the case of the 26 ASCII letters only. *)
Definition fold_case (c : ascii) : ascii :=
  let n := N_of_ascii c in
  if ((65 <=? n) && (n <=? 90))%N then ascii_of_N (n + 32) else c.

(** [x LIKE pattern] on two texts, with the default settings of the engine:
    [%] stands for any run of characters, [_] for any one character, every
    other character for itself up to the case of ASCII letters. *)
Fixpoint like_match (pattern : string) : string → bool :=
  match pattern with
  | EmptyString => λ s, match s with EmptyString => true | _ => false end
  | String p pattern' =>
      if Ascii.eqb p "%" then
        fix any_run (s : string) : bool :=
          like_match pattern' s
          || match s with String _ s' => any_run s' | EmptyString => false end
      else if Ascii.eqb p "_" then
        λ s, match s with
             | String _ s' => like_match pattern' s'
             | EmptyString => false
             end
      else
        λ s, match s with
             | String c s' =>
                 Ascii.eqb (fold_case p) (fold_case c) && like_match pattern' s'
             | EmptyString => false
             end
  end.

(** The three-valued logic of a WHERE clause: [None] is NULL. *)
Definition like (x : option string) (pattern : string) : option bool :=
  like_match pattern <$> x.
Definition equals (x : option string) (v : string) : option bool :=
  (λ s, bool_decide (s = v)) <$> x.
Definition disj (a b : option bool) : option bool :=
  match a, b with
  | Some true, _ | _, Some true => Some true
  | Some false, Some false => Some false
  | _, _ => None
  end.
Definition conj (a b : option bool) : option bool :=
  match a, b with
  | Some false, _ | _, Some false => Some false
  | Some true, Some true => Some true
  | _, _ => None
  end.

(** The order of ORDER BY on a TEXT column: NULL comes before every text,
    texts compare character by character (the BINARY collation). *)
Definition le (a b : option string) : Prop :=
  match a, b with
  | None, _ => True
  | Some _, None => False
  | Some x, Some y => String.le x y
  end.

(** The affinity of a column declared INTEGER, applied to a value bound by
    the Python driver.  Text that reads as a number is stored as that
    number and other text is stored as it is; which text reads as a number
    is the engine's business ([numeric_text]).  Integers and NULL are
    stored as they are, and so is a real that was read from the column. *)
Definition integer_affinity (numeric_text : string → Value) (v : Value)
  : Value :=
  match v with
  | Text s => numeric_text s
  | _ => v
  end.

(** What the engine guarantees about [numeric_text]: a text it leaves as
    text is left unchanged. *)
Definition keeps_text (numeric_text : string → Value) : Prop :=
  ∀ s t, numeric_text s = Text t → t = s.

End Sql.

#[global] Instance sql_le_dec : RelDecision Sql.le.
Proof. intros [x|] [y|]; simpl; apply _. Defined.

#[global] Instance sql_le_total : Total Sql.le.
Proof.
  intros [x|] [y|]; simpl; auto.
  destruct (total String.le x y); auto.
Qed.

#[global] Instance sql_le_trans : Transitive Sql.le.
Proof.
  intros [x|] [y|] [z|]; simpl; try tauto.
  apply (transitivity (R := String.le)).
Qed.

(** ** The data model *)

(** A row of the table [donations].  [donor_name] is declared NOT NULL;
    every other column may hold NULL.  The TEXT columns only ever receive a
    [str] or [None] from the handlers; [quantity] is declared INTEGER and
    receives what the form gave. *)
Module Donation.
Record t := {
  id : N;
  donor_name : string;
  donor_phone : option string;
  donor_email : option string;
  donation_type : option string;
  quantity : Sql.Value;
  destination : option string;
  created_at : option string;
  status : option string;
  token : option string;
  photo_path : option string
}.
End Donation.

(** A row of the table [users]. *)
Module User.
Record t := {
  id : N;
  username : option string;
  password : option string;
  role : option string
}.
End User.

(** The values kept in the Flask [session]. *)
Inductive PyVal :=
| PyNone
| PyBool (b : bool)
| PyInt (z : Z)
| PyStr (s : string).

#[global] Instance PyVal_eq_dec : EqDecision PyVal.
Proof. solve_decision. Defined.

(** [None] for NULL, the string otherwise: what [row["col"]] gives. *)
Definition py_of_text (x : option string) : PyVal :=
  match x with Some s => PyStr s | None => PyNone end.

(** The truth value of [session.get(key)]. *)
Definition py_truthy (v : option PyVal) : bool :=
  match v with
  | Some (PyBool b) => b
  | Some (PyInt z) => negb (z =? 0)%Z
  | Some (PyStr s) => Py.truthy s
  | Some PyNone | None => false
  end.

(** The targets of [url_for] and of [redirect]. *)
Inductive Url :=
| url_login (next : option string)
| url_admin_list
| url_donation_qr (token : option string)
| url_track_donation (token : string)
| url_whatsapp (shared : Url)
| url_given (location : string).

(** The messages of the application: a bad login, the 403 of
    [role_required], the 400 of [delete_donation]. *)
Inductive Message :=
| msg_bad_credentials
| msg_no_permission
| msg_only_registrada.

(** The errors [sqlite3] raises on a constraint. *)
Inductive Exception :=
| IntegrityError_not_null_donor_name
| IntegrityError_unique_token.

(** The templates, each with the variables it is rendered with. *)
Inductive Page :=
| login_html (error : option Message)
| admin_list_html (donations : list Donation.t) (q status_filter : string)
| new_donation_html
| donation_qr_html (donation : Donation.t) (qr_filename : string)
    (track_url : Url)
| donation_print_html (donation : Donation.t) (qr_filename : string)
    (track_url : Url)
| track_html (donation : Donation.t) (track_url whatsapp_url : Url)
| update_donation_html (donation : Donation.t) (edit_allowed : bool).

(** What a view function hands back to Flask. *)
Inductive Response :=
| redirect (location : Url)
| render_template (page : Page)
| text_status (body : Message) (code : N)
| send_file (content : list byte)
| abort (code : N)
| raised (e : Exception).

Inductive Method := GET | POST.

#[global] Instance Method_eq_dec : EqDecision Method.
Proof. solve_decision. Defined.

(** An uploaded file of [request.files]. *)
Record FileStorage := {
  filename : string;
  stream : list byte
}.

Module Request.
Record t := {
  method : Method;
  path : string;
  args : gmap string string;
  form : gmap string string;
  files : gmap string FileStorage
}.
End Request.

(** The state the handlers read and write: the two tables with their
    AUTOINCREMENT counters, the session of the client, the QR folder (file
    name to the URL the image encodes) and the upload folder (file name to
    content). *)
Record World := {
  donations : list Donation.t;
  donations_seq : N;
  users : list User.t;
  users_seq : N;
  session : gmap string PyVal;
  qr_folder : gmap string Url;
  upload_folder : gmap string (list byte)
}.

Definition set_donations (ds : list Donation.t) (seq : N) (w : World)
  : World :=
  {| donations := ds; donations_seq := seq;
     users := users w; users_seq := users_seq w; session := session w;
     qr_folder := qr_folder w; upload_folder := upload_folder w |}.

Definition set_users (us : list User.t) (seq : N) (w : World) : World :=
  {| donations := donations w; donations_seq := donations_seq w;
     users := us; users_seq := seq; session := session w;
     qr_folder := qr_folder w; upload_folder := upload_folder w |}.

Definition set_session (s : gmap string PyVal) (w : World) : World :=
  {| donations := donations w; donations_seq := donations_seq w;
     users := users w; users_seq := users_seq w; session := s;
     qr_folder := qr_folder w; upload_folder := upload_folder w |}.

Definition set_qr_folder (q : gmap string Url) (w : World) : World :=
  {| donations := donations w; donations_seq := donations_seq w;
     users := users w; users_seq := users_seq w; session := session w;
     qr_folder := q; upload_folder := upload_folder w |}.

Definition set_upload_folder (u : gmap string (list byte)) (w : World)
  : World :=
  {| donations := donations w; donations_seq := donations_seq w;
     users := users w; users_seq := users_seq w; session := session w;
     qr_folder := qr_folder w; upload_folder := u |}.

Definition Handler : Type := Request.t → World → Response * World.

(** ** The queries *)

(** [SELECT * FROM donations WHERE id = ?] followed by [fetchone()] *)
Definition select_by_id (donation_id : N) (ds : list Donation.t)
  : option Donation.t :=
  List.find (λ d, bool_decide (Donation.id d = donation_id)) ds.

(** [SELECT * FROM donations WHERE token = ?] followed by [fetchone()].
    A NULL token equals nothing. *)
Definition select_by_token (token : string) (ds : list Donation.t)
  : option Donation.t :=
  List.find (λ d, bool_decide (Donation.token d = Some token)) ds.

(** [SELECT * FROM users WHERE username = ? AND password = ?] followed by
    [fetchone()] *)
Definition select_user (username password : string) (us : list User.t)
  : option User.t :=
  List.find (λ u, bool_decide (User.username u = Some username)
                  && bool_decide (User.password u = Some password)) us.

(** The rowid AUTOINCREMENT gives to a new row: one more than the largest
    rowid the table has ever held. *)
Definition next_rowid (seq : N) (ids : list N) : N :=
  (N.max seq (foldr N.max 0 ids) + 1)%N.

(** [INSERT INTO donations (...) VALUES (?, ?, ?, ?, ?, ?, ?, ?, ?, ?)] with
    the constraints of the table: [donor_name] NOT NULL, [token] UNIQUE
    (NULL tokens never collide). *)
Definition insert_donation (numeric_text : string → Sql.Value)
    (donor_name donor_phone donor_email donation_type : option string)
    (quantity : Sql.Value)
    (destination created_at status token photo_path : option string)
    (w : World) : Exception + World :=
  match donor_name with
  | None => inl IntegrityError_not_null_donor_name
  | Some name =>
      if bool_decide (is_Some token)
         && existsb (λ d, bool_decide (Donation.token d = token)) (donations w)
      then inl IntegrityError_unique_token
      else
        let rowid :=
          next_rowid (donations_seq w) (Donation.id <$> donations w) in
        inr (set_donations
               (donations w ++
                [ {| Donation.id := rowid;
                     Donation.donor_name := name;
                     Donation.donor_phone := donor_phone;
                     Donation.donor_email := donor_email;
                     Donation.donation_type := donation_type;
                     Donation.quantity :=
                       Sql.integer_affinity numeric_text quantity;
                     Donation.destination := destination;
                     Donation.created_at := created_at;
                     Donation.status := status;
                     Donation.token := token;
                     Donation.photo_path := photo_path |} ])
               rowid w)
  end.

(** The SET list of the UPDATE of [update_donation], on one row: eight
    columns are written, [id], [created_at] and [token] are not named. *)
Definition set_columns (numeric_text : string → Sql.Value)
    (donor_name : string) (donor_phone donor_email donation_type : option string)
    (quantity : Sql.Value) (destination status photo_path : option string)
    (d : Donation.t) : Donation.t :=
  {| Donation.id := Donation.id d;
     Donation.donor_name := donor_name;
     Donation.donor_phone := donor_phone;
     Donation.donor_email := donor_email;
     Donation.donation_type := donation_type;
     Donation.quantity := Sql.integer_affinity numeric_text quantity;
     Donation.destination := destination;
     Donation.created_at := Donation.created_at d;
     Donation.status := status;
     Donation.token := Donation.token d;
     Donation.photo_path := photo_path |}.

(** [UPDATE donations SET ... WHERE id = ?]: every row with that id is
    rewritten; a NULL [donor_name] violates NOT NULL as soon as a row is
    concerned. *)
Definition update_donations (numeric_text : string → Sql.Value)
    (donor_name donor_phone donor_email donation_type : option string)
    (quantity : Sql.Value) (destination status photo_path : option string)
    (donation_id : N) (w : World) : Exception + World :=
  match donor_name with
  | None =>
      if existsb (λ d, bool_decide (Donation.id d = donation_id)) (donations w)
      then inl IntegrityError_not_null_donor_name
      else inr w
  | Some name =>
      inr (set_donations
             ((λ d, if bool_decide (Donation.id d = donation_id)
                    then set_columns numeric_text name donor_phone donor_email
                           donation_type quantity destination status
                           photo_path d
                    else d) <$> donations w)
             (donations_seq w) w)
  end.

(** [DELETE FROM donations WHERE id = ?] *)
Definition delete_donations (donation_id : N) (w : World) : World :=
  set_donations
    (filter (λ d, Donation.id d ≠ donation_id) (donations w))
    (donations_seq w) w.

(** The columns the search of [admin_list] reads. *)
Module Col.
Inductive t :=
| donor_name | donor_phone | donor_email | donation_type | destination
| token | status.
Definition get (c : t) (d : Donation.t) : option string :=
  match c with
  | donor_name => Some (Donation.donor_name d)
  | donor_phone => Donation.donor_phone d
  | donor_email => Donation.donor_email d
  | donation_type => Donation.donation_type d
  | destination => Donation.destination d
  | token => Donation.token d
  | status => Donation.status d
  end.
End Col.

(** The WHERE clauses [admin_list] assembles, with each [?] already
    replaced by its parameter. *)
Inductive Where :=
| W_true
| W_and (a b : Where)
| W_or (a b : Where)
| W_like (c : Col.t) (pattern : string)
| W_eq (c : Col.t) (v : string).

Fixpoint eval_where (e : Where) (d : Donation.t) : option bool :=
  match e with
  | W_true => Some true
  | W_and a b => Sql.conj (eval_where a d) (eval_where b d)
  | W_or a b => Sql.disj (eval_where a d) (eval_where b d)
  | W_like c pattern => Sql.like (Col.get c d) pattern
  | W_eq c v => Sql.equals (Col.get c d) v
  end.

(** The rows are kept when the clause is true (neither false nor NULL). *)
Definition select_where (e : Where) (ds : list Donation.t)
  : list Donation.t :=
  filter (λ d, eval_where e d = Some true) ds.

(** [ORDER BY created_at DESC].  The query leaves the order of rows with
    equal timestamps open; the model sorts by merging. *)
Definition created_at_desc (a b : Donation.t) : Prop :=
  Sql.le (Donation.created_at b) (Donation.created_at a).

#[global] Instance created_at_desc_dec : RelDecision created_at_desc.
Proof. intros a b; unfold created_at_desc; apply _. Defined.

#[global] Instance created_at_desc_total : Total created_at_desc.
Proof.
  intros a b; unfold created_at_desc.
  destruct (total Sql.le (Donation.created_at a) (Donation.created_at b));
    auto.
Qed.

#[global] Instance created_at_desc_trans : Transitive created_at_desc.
Proof.
  intros a b c H1 H2; unfold created_at_desc in *.
  by transitivity (Donation.created_at b).
Qed.

Definition order_by_created_at_desc (ds : list Donation.t)
  : list Donation.t :=
  merge_sort created_at_desc ds.

(** ** The decorators

    [app.route] records the view in the URL map and returns it unchanged:
    the Python name of a view denotes the function the other decorators
    built. *)

Definition login_required (f : Handler) : Handler := λ request w,
  if negb (py_truthy (session w !! "logged_in"))
  then (redirect (url_login (Some (Request.path request))), w)
  else f request w.

Definition role_required (role : string) (f : Handler) : Handler :=
  λ request w,
  if bool_decide (default PyNone (session w !! "role") ≠ PyStr role)
  then (text_status msg_no_permission 403, w)
  else f request w.

(** ** Start-up *)

(** A database file that does not exist yet, no cookie, empty folders. *)
Definition empty_world : World :=
  {| donations := []; donations_seq := 0; users := []; users_seq := 0;
     session := ∅; qr_folder := ∅; upload_folder := ∅ |}.

(** [init_db()]: the tables are created when missing, and the account
    [admin] when no user has that name. *)
Definition init_db (w : World) : World :=
  match List.find (λ u, bool_decide (User.username u = Some "admin"))
          (users w) with
  | None =>
      let rowid := next_rowid (users_seq w) (User.id <$> users w) in
      set_users
        (users w ++ [ {| User.id := rowid;
                         User.username := Some "admin";
                         User.password := Some "agape2025";
                         User.role := Some "admin" |} ])
        rowid w
  | Some _ => w
  end.

(** ** Helpers *)

(** [generate_qr_for_token(token)]: the image of the public tracking URL is
    saved as [qr_<token>.png]. *)
Definition generate_qr_for_token (token : string) (w : World)
  : string * World :=
  let track_url := url_track_donation token in
  let filename := "qr_" +:+ token +:+ ".png" in
  (filename, set_qr_folder (<[filename := track_url]> (qr_folder w)) w).

(** [request.form.get("quantity") or 0] *)
Definition quantity_or_0 (v : option string) : Sql.Value :=
  match v with
  | Some s => if Py.truthy s then Sql.Text s else Sql.Integer 0
  | None => Sql.Integer 0
  end.

(** ** Login and logout *)

Definition login : Handler := λ request w,
  match Request.method request with
  | POST =>
      let username :=
        Py.strip (default EmptyString (Request.form request !! "username")) in
      let password :=
        Py.strip (default EmptyString (Request.form request !! "password")) in
      match select_user username password (users w) with
      | Some user =>
          let s := <["logged_in" := PyBool true]> (session w) in
          let s := <["user_id" := PyInt (Z.of_N (User.id user))]> s in
          let s := <["username" := py_of_text (User.username user)]> s in
          let s := <["role" := py_of_text (User.role user)]> s in
          let next_url :=
            match Request.args request !! "next" with
            | Some next => if Py.truthy next then url_given next
                           else url_admin_list
            | None => url_admin_list
            end in
          (redirect next_url, set_session s w)
      | None =>
          (render_template (login_html (Some msg_bad_credentials)), w)
      end
  | GET => (render_template (login_html None), w)
  end.

Definition logout : Handler :=
  login_required (λ request w,
    (redirect (url_login None), set_session ∅ w)).

(** ** The panel *)

Definition admin_list : Handler :=
  login_required (λ request w,
    let q := Py.strip (default EmptyString (Request.args request !! "q")) in
    let status_filter :=
      Py.strip (default EmptyString (Request.args request !! "status")) in
    let sql := W_true in
    let sql :=
      if Py.truthy q then
        let like := "%" +:+ q +:+ "%" in
        W_and sql
          (W_or (W_like Col.donor_name like)
          (W_or (W_like Col.donor_phone like)
          (W_or (W_like Col.donor_email like)
          (W_or (W_like Col.donation_type like)
          (W_or (W_like Col.destination like)
                (W_like Col.token like))))))
      else sql in
    let sql :=
      if Py.truthy status_filter then W_and sql (W_eq Col.status status_filter)
      else sql in
    let donations :=
      order_by_created_at_desc (select_where sql (donations w)) in
    (render_template (admin_list_html donations q status_filter), w)).

(** ** Donations *)

(** [new_donation].  [now] is [datetime.now().strftime("%Y-%m-%d %H:%M:%S")]
    and [token_bytes] the random source, both as the request finds them.
    An error of the INSERT leaves the view before the commit and before the
    QR image. *)
Definition new_donation (numeric_text : string → Sql.Value) (now : string)
    (token_bytes : nat → list byte) : Handler :=
  login_required (λ request w,
    match Request.method request with
    | POST =>
        let donor_name := Request.form request !! "donor_name" in
        let donor_phone := Request.form request !! "donor_phone" in
        let donor_email := Request.form request !! "donor_email" in
        let donation_type := Request.form request !! "donation_type" in
        let quantity := quantity_or_0 (Request.form request !! "quantity") in
        let destination := Request.form request !! "destination" in
        let created_at := now in
        let status := "Registrada" in
        let token := generate_token token_bytes in
        match insert_donation numeric_text donor_name donor_phone donor_email
                donation_type quantity destination (Some created_at)
                (Some status) (Some token) None w with
        | inl e => (raised e, w)
        | inr w =>
            let '(_, w) := generate_qr_for_token token w in
            (redirect (url_donation_qr (Some token)), w)
        end
    | GET => (render_template new_donation_html, w)
    end).

(** [donation_qr]: the QR image is drawn again when the file is missing. *)
Definition donation_qr (token : string) : Handler :=
  login_required (λ request w,
    match select_by_token token (donations w) with
    | None => (abort 404, w)
    | Some donation =>
        let qr_filename := "qr_" +:+ token +:+ ".png" in
        let w :=
          if bool_decide (is_Some (qr_folder w !! qr_filename)) then w
          else (generate_qr_for_token token w).2 in
        let track_url := url_track_donation token in
        (render_template (donation_qr_html donation qr_filename track_url), w)
    end).

(** [donation_print]: the same with the ticket template. *)
Definition donation_print (token : string) : Handler :=
  login_required (λ request w,
    match select_by_token token (donations w) with
    | None => (abort 404, w)
    | Some donation =>
        let qr_filename := "qr_" +:+ token +:+ ".png" in
        let w :=
          if bool_decide (is_Some (qr_folder w !! qr_filename)) then w
          else (generate_qr_for_token token w).2 in
        let track_url := url_track_donation token in
        (render_template (donation_print_html donation qr_filename track_url),
         w)
    end).

(** [track_donation], the public page: no decorator. *)
Definition track_donation (token : string) : Handler := λ request w,
  match select_by_token token (donations w) with
  | None => (abort 404, w)
  | Some donation =>
      let track_url := url_track_donation token in
      let whatsapp_url := url_whatsapp track_url in
      (render_template (track_html donation track_url whatsapp_url), w)
  end.

(** [update_donation].  The photo is written to the upload folder before
    the UPDATE runs, so it stays there when the UPDATE raises. *)
Definition update_donation (numeric_text : string → Sql.Value)
    (donation_id : N) : Handler :=
  login_required (λ request w,
    match select_by_id donation_id (donations w) with
    | None => (abort 404, w)
    | Some donation =>
        let edit_allowed :=
          bool_decide (Donation.status donation = Some "Registrada") in
        match Request.method request with
        | POST =>
            let new_status := Request.form request !! "status" in
            let photo := Request.files request !! "photo" in
            (* the current values by default *)
            let donor_name := Some (Donation.donor_name donation) in
            let donor_phone := Donation.donor_phone donation in
            let donor_email := Donation.donor_email donation in
            let donation_type := Donation.donation_type donation in
            let quantity := Donation.quantity donation in
            let destination := Donation.destination donation in
            (* the form, when the donation is still Registrada *)
            let '(donor_name, donor_phone, donor_email, donation_type,
                  quantity, destination) :=
              if edit_allowed then
                (Request.form request !! "donor_name",
                 Request.form request !! "donor_phone",
                 Request.form request !! "donor_email",
                 Request.form request !! "donation_type",
                 quantity_or_0 (Request.form request !! "quantity"),
                 Request.form request !! "destination")
              else
                (donor_name, donor_phone, donor_email, donation_type,
                 quantity, destination) in
            let photo_path := Donation.photo_path donation in
            let '(photo_path, w) :=
              match photo with
              | Some photo =>
                  if Py.truthy (filename photo) then
                    let ext := Py.lower (Py.splitext (filename photo)).2 in
                    let fname := "donation_" +:+ pretty donation_id +:+ ext in
                    (Some ("uploads/" +:+ fname),
                     set_upload_folder
                       (<[fname := stream photo]> (upload_folder w)) w)
                  else (photo_path, w)
              | None => (photo_path, w)
              end in
            match update_donations numeric_text donor_name donor_phone
                    donor_email donation_type quantity destination new_status
                    photo_path donation_id w with
            | inl e => (raised e, w)
            | inr w =>
                (redirect (url_donation_qr (Donation.token donation)), w)
            end
        | GET =>
            (render_template (update_donation_html donation edit_allowed), w)
        end
    end).

(** [delete_donation]: [login_required] outside, [role_required("admin")]
    inside. *)
Definition delete_donation (donation_id : N) : Handler :=
  login_required (role_required "admin" (λ request w,
    match select_by_id donation_id (donations w) with
    | None => (abort 404, w)
    | Some donation =>
        if bool_decide (Donation.status donation ≠ Some "Registrada")
        then (text_status msg_only_registrada 400, w)
        else (redirect url_admin_list, delete_donations donation_id w)
    end)).

(** [uploaded_file]: [send_from_directory] answers 404 for a name the
    upload folder does not hold. *)
Definition uploaded_file (filename : string) : Handler := λ request w,
  match upload_folder w !! filename with
  | Some content => (send_file content, w)
  | None => (abort 404, w)
  end.

(** ** Examples of use *)

(** An engine that reads the decimal integers without sign and leaves every
    other text alone. *)
Fixpoint decimal_digits (s : string) (acc : Z) : option Z :=
  match s with
  | EmptyString => Some acc
  | String c s' =>
      match Ascii.is_nat c with
      | Some n => decimal_digits s' (10 * acc + Z.of_nat n)
      | None => None
      end
  end.
Definition decimal_text (s : string) : Sql.Value :=
  match s with
  | EmptyString => Sql.Text s
  | _ => match decimal_digits s 0 with
         | Some z => Sql.Integer z
         | None => Sql.Text s
         end
  end.

(** ** Invariants of the store *)

(** What holds of every world the application can reach: the primary key
    and the tokens that are not NULL are unique, every stored quantity is a
    value the INTEGER column keeps as it is, and a session that holds
    anything holds [logged_in = True]. *)
Record consistent (numeric_text : string → Sql.Value) (w : World) : Prop := {
  ids_unique : NoDup (Donation.id <$> donations w);
  tokens_unique : NoDup (omap Donation.token (donations w));
  quantities_stored :
    Forall (λ d, Sql.integer_affinity numeric_text (Donation.quantity d)
                 = Donation.quantity d) (donations w);
  session_logged_in :
    session w = ∅ ∨ session w !! "logged_in" = Some (PyBool true)
}.

(** A stored user has exactly this username and this password. *)
Definition credentials_match (username password : string) (u : User.t)
  : Prop :=
  User.username u = Some username ∧ User.password u = Some password.

(** The six descriptive columns of a row. *)
Definition descriptive (d : Donation.t)
  : string * option string * option string * option string * Sql.Value
    * option string :=
  (Donation.donor_name d, Donation.donor_phone d, Donation.donor_email d,
   Donation.donation_type d, Donation.quantity d, Donation.destination d).

(** What never changes in a row once it is inserted. *)
Definition birth (d : Donation.t) : N * option string * option string :=
  (Donation.id d, Donation.token d, Donation.created_at d).

Definition logged_in (w : World) : Prop :=
  py_truthy (session w !! "logged_in") = true.

(** A run of update requests, each with the id of its URL. *)
Definition run_updates (numeric_text : string → Sql.Value)
    (requests : list (N * Request.t)) (w : World) : World :=
  foldl (λ w r, (update_donation numeric_text r.1 r.2 w).2) w requests.

(** The UPDATE of [update_donation] is refused by NOT NULL exactly when the
    donation is Registrada and the form carries no [donor_name]. *)
Definition update_accepted (request : Request.t) (d : Donation.t) : Prop :=
  Donation.status d = Some "Registrada" →
  is_Some (Request.form request !! "donor_name").

(** A photo was chosen in the form: the part is there and has a file name. *)
Definition photo_supplied (request : Request.t) : option FileStorage :=
  match Request.files request !! "photo" with
  | Some photo => if Py.truthy (filename photo) then Some photo else None
  | None => None
  end.

(** The place of a character in the URL-safe alphabet: the inverse of
    [Base64.digit] followed by [Base64.urlsafe_char], used in proofs. *)
Fixpoint index_in (c : ascii) (l : list ascii) : N :=
  match l with
  | [] => 0
  | x :: l' => if Ascii.eqb x c then 0 else N.succ (index_in c l')
  end.

Definition url_index (c : ascii) : N :=
  index_in c (map Base64.urlsafe_char Base64.alphabet).

(** The row [new_donation] inserts. *)
Definition new_row (numeric_text : string → Sql.Value) (now : string)
    (token_bytes : nat → list byte) (request : Request.t) (w : World)
    (name : string) : Donation.t :=
  {| Donation.id :=
       next_rowid (donations_seq w) (Donation.id <$> donations w);
     Donation.donor_name := name;
     Donation.donor_phone := Request.form request !! "donor_phone";
     Donation.donor_email := Request.form request !! "donor_email";
     Donation.donation_type := Request.form request !! "donation_type";
     Donation.quantity :=
       Sql.integer_affinity numeric_text
         (quantity_or_0 (Request.form request !! "quantity"));
     Donation.destination := Request.form request !! "destination";
     Donation.created_at := Some now;
     Donation.status := Some "Registrada";
     Donation.token := Some (generate_token token_bytes);
     Donation.photo_path := None |}.

(** The columns the search box of the panel looks in. *)
Definition searched_columns : list Col.t :=
  [Col.donor_name; Col.donor_phone; Col.donor_email; Col.donation_type;
   Col.destination; Col.token].

(** A row answers the search for [q] when one of these columns holds a
    text, not NULL, that matches the pattern [%q%]. *)
Definition matches_query (q : string) (d : Donation.t) : bool :=
  existsb (λ c, match Col.get c d with
                | Some v => Sql.like_match ("%" +:+ q +:+ "%") v
                | None => false
                end) searched_columns.

(** The rows [admin_list] shows for a search text and a status filter, both
    already stripped: an empty one filters nothing. *)
Definition listed (q status_filter : string) (d : Donation.t) : bool :=
  (negb (Py.truthy q) || matches_query q d)
  && (negb (Py.truthy status_filter)
      || bool_decide (Donation.status d = Some status_filter)).

Fixpoint fold_text (s : string) : string :=
  match s with
  | String c s' => String (Sql.fold_case c) (fold_text s')
  | EmptyString => EmptyString
  end.

(** [needle] occurs in [hay] up to the case of the ASCII letters. *)
Definition occurs_folded (needle hay : string) : Prop :=
  ∃ pre mid post,
    hay = pre +:+ mid +:+ post ∧ fold_text mid = fold_text needle.

(** The text holds neither of the two wildcards of LIKE. *)
Definition no_wildcard (q : string) : Prop :=
  Py.any_char (λ c, Ascii.eqb c "%" || Ascii.eqb c "_") q = false.

(** The reading of the search the specification gives, for comparison with
    [matches_query]: [needle] is a substring of [hay], character for
    character, as Python's [needle in hay]. *)
Fixpoint contains (needle hay : string) : bool :=
  String.prefix needle hay
  || match hay with
     | String _ hay' => contains needle hay'
     | EmptyString => false
     end.

Definition contains_in_column (q : string) (d : Donation.t) (c : Col.t)
  : bool :=
  match Col.get c d with Some v => contains q v | None => false end.

(** ** How the worlds of the application come about *)

(** A request served by one of the views. *)
Inductive Call :=
| call_login
| call_logout
| call_admin_list
| call_new_donation (now : string) (token_bytes : nat → list byte)
| call_donation_qr (token : string)
| call_donation_print (token : string)
| call_track_donation (token : string)
| call_update_donation (donation_id : N)
| call_delete_donation (donation_id : N)
| call_uploaded_file (filename : string).

Definition serve (numeric_text : string → Sql.Value) (c : Call) : Handler :=
  match c with
  | call_login => login
  | call_logout => logout
  | call_admin_list => admin_list
  | call_new_donation now token_bytes =>
      new_donation numeric_text now token_bytes
  | call_donation_qr token => donation_qr token
  | call_donation_print token => donation_print token
  | call_track_donation token => track_donation token
  | call_update_donation donation_id =>
      update_donation numeric_text donation_id
  | call_delete_donation donation_id => delete_donation donation_id
  | call_uploaded_file filename => uploaded_file filename
  end.

(** The worlds the process reaches: it starts on nothing, runs [init_db] on
    every start and serves requests in between. *)
Inductive reachable (numeric_text : string → Sql.Value) : World → Prop :=
| reachable_empty : reachable numeric_text empty_world
| reachable_init_db w :
    reachable numeric_text w → reachable numeric_text (init_db w)
| reachable_serve w c request :
    reachable numeric_text w →
    reachable numeric_text (serve numeric_text c request w).2.

(** ** Sample requests and worlds *)

Definition post (path : string) (form : list (string * string))
  : Request.t :=
  {| Request.method := POST; Request.path := path; Request.args := ∅;
     Request.form := list_to_map form; Request.files := ∅ |}.

Definition post_photo (path : string) (form : list (string * string))
    (photo : FileStorage) : Request.t :=
  {| Request.method := POST; Request.path := path; Request.args := ∅;
     Request.form := list_to_map form;
     Request.files := {[ "photo" := photo ]} |}.

Definition get (path : string) (args : list (string * string))
  : Request.t :=
  {| Request.method := GET; Request.path := path;
     Request.args := list_to_map args; Request.form := ∅;
     Request.files := ∅ |}.

(** Two random sources that always give the same bytes. *)
Definition all_zero (n : nat) : list byte := repeat x00 n.
Definition all_one (n : nat) : list byte := repeat xff n.

(** After the first start, with the administrator logged in. *)
Definition admin_world : World :=
  (login (post "/login" [("username", "admin"); ("password", "agape2025")])
     (init_db empty_world)).2.

(** The administrator has registered a donation of Ana. *)
Definition ana_world : World :=
  (new_donation decimal_text "2025-03-01 10:00:00" all_zero
     (post "/new" [("donor_name", "Ana")]) admin_world).2.

Definition ana : Donation.t :=
  {| Donation.id := 1;
     Donation.donor_name := "Ana";
     Donation.donor_phone := None;
     Donation.donor_email := None;
     Donation.donation_type := None;
     Donation.quantity := Sql.Integer 0;
     Donation.destination := None;
     Donation.created_at := Some "2025-03-01 10:00:00";
     Donation.status := Some "Registrada";
     Donation.token := Some "AAAAAAAAAAAAAAAA";
     Donation.photo_path := None |}.

(** The same world once the administrator has logged out. *)
Definition anonymous_world : World :=
  (logout (get "/logout" []) ana_world).2.

(** The donation of Ana was delivered. *)
Definition delivered_world : World :=
  (update_donation decimal_text 1
     (post "/admin/update/1"
        [("donor_name", "Ana"); ("status", "Entregada")]) ana_world).2.

Definition foto : FileStorage :=
  {| filename := "Entrega.JPG"; stream := [xff; xd8; xff] |}.

(** ** The context of the templates *)

Module CurrentUser.
Record t := {
  username : PyVal;
  role : PyVal
}.
End CurrentUser.

Module UserContext.
Record t := {
  logged_in : PyVal;
  current_user : CurrentUser.t
}.
End UserContext.

(** [inject_user_context()]: [session.get("logged_in", False)] and the
    username and role of the session, [None] when the key is missing. *)
Definition inject_user_context (w : World) : UserContext.t :=
  {| UserContext.logged_in :=
       default (PyBool false) (session w !! "logged_in");
     UserContext.current_user :=
       {| CurrentUser.username := default PyNone (session w !! "username");
          CurrentUser.role := default PyNone (session w !! "role") |} |}.

(** The views behind [login_required]: all but the login form, the public
    tracking page and the uploaded files. *)
Definition protected (c : Call) : bool :=
  match c with
  | call_login | call_track_donation _ | call_uploaded_file _ => false
  | _ => true
  end.

(** No row has a rowid above the AUTOINCREMENT counter of its table. *)
Definition rowids_bounded (w : World) : Prop :=
  Forall (λ d, (Donation.id d ≤ donations_seq w)%N) (donations w).

(** The text holds the path separator. *)
Definition has_slash (s : string) : bool :=
  Py.any_char (λ c, Ascii.eqb c "/") s.

(** A text made of the wildcard [%] only, at least once. *)
Fixpoint all_percent (s : string) : bool :=
  match s with
  | String c EmptyString => Ascii.eqb c "%"
  | String c s' => Ascii.eqb c "%" && all_percent s'
  | EmptyString => false
  end.

(** The name [update_donation] saves an uploaded photo under. *)
Definition upload_name (donation_id : N) (photo : FileStorage) : string :=
  "donation_" +:+ pretty donation_id
  +:+ Py.lower (Py.splitext (filename photo)).2.

(** The name of the QR image of a token. *)
Definition qr_name (token : string) : string := "qr_" +:+ token +:+ ".png".

(** ** Basic facts *)

Lemma login_required_logged_in f request w :
  logged_in w → login_required f request w = f request w.
Proof. unfold logged_in, login_required. by intros ->. Qed.

Lemma login_required_anonymous f request w :
  ¬ logged_in w →
  login_required f request w
  = (redirect (url_login (Some (Request.path request))), w).
Proof.
  unfold logged_in, login_required.
  by destruct (py_truthy (session w !! "logged_in")).
Qed.

Lemma select_by_id_Some i ds d :
  select_by_id i ds = Some d → d ∈ ds ∧ Donation.id d = i.
Proof.
  unfold select_by_id. intros H. apply find_some in H as [Hin Hid].
  split; [by apply list_elem_of_In | by apply bool_decide_eq_true in Hid].
Qed.

Lemma select_by_id_fmap (g : Donation.t → Donation.t) i ds :
  (∀ d, Donation.id (g d) = Donation.id d) →
  select_by_id i (g <$> ds) = g <$> select_by_id i ds.
Proof.
  intros Hg. unfold select_by_id.
  induction ds as [|d ds IH]; simpl; [done|].
  rewrite Hg. by destruct (bool_decide (Donation.id d = i)).
Qed.

Lemma select_by_id_exists i ds d :
  select_by_id i ds = Some d →
  existsb (λ d, bool_decide (Donation.id d = i)) ds = true.
Proof.
  intros [Hin Hid]%select_by_id_Some. apply existsb_exists.
  exists d. split; [by apply list_elem_of_In | by apply bool_decide_eq_true].
Qed.

(** Every branch of [update_donation] in one statement: the response and
    the world it leaves, for a request that reaches the view. *)
Lemma update_donation_post numeric_text i request w d :
  logged_in w →
  Request.method request = POST →
  select_by_id i (donations w) = Some d →
  let edit := bool_decide (Donation.status d = Some "Registrada") in
  let photo_path :=
    match photo_supplied request with
    | Some photo =>
        Some ("uploads/" +:+ "donation_" +:+ pretty i
              +:+ Py.lower (Py.splitext (filename photo)).2)
    | None => Donation.photo_path d
    end in
  let w1 :=
    match photo_supplied request with
    | Some photo =>
        set_upload_folder
          (<["donation_" +:+ pretty i
             +:+ Py.lower (Py.splitext (filename photo)).2 := stream photo]>
             (upload_folder w)) w
    | None => w
    end in
  update_donation numeric_text i request w =
  if edit then
    match Request.form request !! "donor_name" with
    | None => (raised IntegrityError_not_null_donor_name, w1)
    | Some name =>
        (redirect (url_donation_qr (Donation.token d)),
         set_donations
           ((λ r, if bool_decide (Donation.id r = i)
                  then set_columns numeric_text name
                         (Request.form request !! "donor_phone")
                         (Request.form request !! "donor_email")
                         (Request.form request !! "donation_type")
                         (quantity_or_0 (Request.form request !! "quantity"))
                         (Request.form request !! "destination")
                         (Request.form request !! "status") photo_path r
                  else r) <$> donations w)
           (donations_seq w) w1)
    end
  else
    (redirect (url_donation_qr (Donation.token d)),
     set_donations
       ((λ r, if bool_decide (Donation.id r = i)
              then set_columns numeric_text (Donation.donor_name d)
                     (Donation.donor_phone d) (Donation.donor_email d)
                     (Donation.donation_type d) (Donation.quantity d)
                     (Donation.destination d)
                     (Request.form request !! "status") photo_path r
              else r) <$> donations w)
       (donations_seq w) w1).
Proof.
  intros Hlog Hpost Hsel. simpl.
  unfold update_donation. rewrite login_required_logged_in by done.
  rewrite Hsel, Hpost. unfold photo_supplied.
  pose proof (select_by_id_exists _ _ _ Hsel) as Hex.
  destruct (bool_decide (Donation.status d = Some "Registrada"));
    destruct (Request.files request !! "photo") as [photo|];
    try destruct (Py.truthy (filename photo));
    try destruct (Request.form request !! "donor_name");
    simpl; unfold update_donations; simpl; by rewrite ?Hex.
Qed.

(** A request that does not reach the UPDATE leaves the table alone. *)
Lemma update_donation_donations numeric_text i request w :
  donations (update_donation numeric_text i request w).2 = donations w
  ∨ ∃ d name phone email type qty dest st photo,
      select_by_id i (donations w) = Some d
      ∧ logged_in w ∧ Request.method request = POST
      ∧ donations (update_donation numeric_text i request w).2
        = (λ r, if bool_decide (Donation.id r = i)
                then set_columns numeric_text name phone email type qty dest
                       st photo r
                else r) <$> donations w.
Proof.
  destruct (decide (logged_in w)) as [Hlog|Hlog]; cycle 1.
  { left. unfold update_donation. by rewrite login_required_anonymous. }
  destruct (select_by_id i (donations w)) as [d|] eqn:Hsel; cycle 1.
  { left. unfold update_donation.
    rewrite login_required_logged_in by done. by rewrite Hsel. }
  destruct (Request.method request) eqn:Hm.
  { left. unfold update_donation.
    rewrite login_required_logged_in by done. by rewrite Hsel, Hm. }
  rewrite (update_donation_post _ _ _ _ d) by done.
  destruct (bool_decide (Donation.status d = Some "Registrada")).
  - destruct (Request.form request !! "donor_name") as [name|].
    + right. by repeat eexists.
    + left. simpl. by destruct (photo_supplied request).
  - right. by repeat eexists.
Qed.

Lemma update_donation_not_post numeric_text i request w :
  ¬ (logged_in w ∧ Request.method request = POST) →
  (update_donation numeric_text i request w).2 = w.
Proof.
  intros Hno. unfold update_donation.
  destruct (decide (logged_in w)) as [Hlog|Hlog].
  - rewrite login_required_logged_in by done.
    destruct (select_by_id i (donations w)); [|done].
    destruct (Request.method request); [done|]. destruct Hno; done.
  - by rewrite login_required_anonymous.
Qed.

Lemma set_columns_id numeric_text name phone email type qty dest st photo i r :
  Donation.id
    (if bool_decide (Donation.id r = i)
     then set_columns numeric_text name phone email type qty dest st photo r
     else r) = Donation.id r.
Proof. by destruct (bool_decide (Donation.id r = i)). Qed.

Lemma set_columns_birth numeric_text name phone email type qty dest st photo
    i r :
  birth
    (if bool_decide (Donation.id r = i)
     then set_columns numeric_text name phone email type qty dest st photo r
     else r) = birth r.
Proof. by destruct (bool_decide (Donation.id r = i)). Qed.

Lemma select_by_id_rewritten numeric_text name phone email type qty dest st
    photo i j ds :
  select_by_id j
    ((λ r, if bool_decide (Donation.id r = i)
           then set_columns numeric_text name phone email type qty dest st
                  photo r
           else r) <$> ds)
  = (λ r, if bool_decide (Donation.id r = i)
          then set_columns numeric_text name phone email type qty dest st
                 photo r
          else r) <$> select_by_id j ds.
Proof. apply select_by_id_fmap. intros r. apply set_columns_id. Qed.

Lemma consistent_quantity numeric_text w i d :
  consistent numeric_text w →
  select_by_id i (donations w) = Some d →
  Sql.integer_affinity numeric_text (Donation.quantity d)
  = Donation.quantity d.
Proof.
  intros Hw [Hin _]%select_by_id_Some.
  pose proof (quantities_stored _ _ Hw) as Hq.
  rewrite Forall_forall in Hq. by apply Hq.
Qed.

(** ** The update operation *)

(** C1. The update writes the submitted descriptive fields (donor name,
    phone, email, donation type, quantity, destination) only when the
    current status of the donation is "Registrada".  For a donation whose
    status is anything else, the six stored values after the update are the
    six values stored before, whatever the form carried.  For a donation
    that is Registrada, a POST of a logged-in session that carries a donor
    name stores the six submitted values.  The rows with another id keep
    all their columns in both cases. *)
Theorem update_descriptive_fields numeric_text i request w d :
  consistent numeric_text w →
  select_by_id i (donations w) = Some d →
  let w' := (update_donation numeric_text i request w).2 in
  (Donation.status d ≠ Some "Registrada" →
   descriptive <$> select_by_id i (donations w') = Some (descriptive d))
  ∧ (Donation.status d = Some "Registrada" →
     logged_in w → Request.method request = POST →
     ∀ name, Request.form request !! "donor_name" = Some name →
     descriptive <$> select_by_id i (donations w')
     = Some (name,
             Request.form request !! "donor_phone",
             Request.form request !! "donor_email",
             Request.form request !! "donation_type",
             Sql.integer_affinity numeric_text
               (quantity_or_0 (Request.form request !! "quantity")),
             Request.form request !! "destination"))
  ∧ (∀ j, j ≠ i →
     select_by_id j (donations w') = select_by_id j (donations w)).
Proof.
  intros Hw Hsel w'. subst w'.
  pose proof (select_by_id_Some _ _ _ Hsel) as [_ Hid].
  destruct (decide (logged_in w ∧ Request.method request = POST))
    as [[Hlog Hpost]|Hno]; cycle 1.
  { rewrite update_donation_not_post by done. rewrite Hsel.
    split_and!; [done | | done]. intros ? ? ?. destruct Hno; done. }
  rewrite (update_donation_post _ _ _ _ d) by done.
  split_and!.
  - intros Hst. rewrite bool_decide_false by done. simpl.
    rewrite select_by_id_rewritten, Hsel. simpl.
    rewrite bool_decide_true by done.
    unfold descriptive, set_columns; simpl.
    by rewrite (consistent_quantity _ _ _ _ Hw Hsel).
  - intros Hst _ _ name Hname. rewrite bool_decide_true by done.
    rewrite Hname. simpl.
    rewrite select_by_id_rewritten, Hsel. simpl.
    by rewrite bool_decide_true by done.
  - intros j Hj.
    assert (∀ name phone email type qty dest st photo,
      select_by_id j
        ((λ r, if bool_decide (Donation.id r = i)
               then set_columns numeric_text name phone email type qty dest
                      st photo r
               else r) <$> donations w) = select_by_id j (donations w))
      as Hother.
    { intros. rewrite select_by_id_rewritten.
      destruct (select_by_id j (donations w)) as [r|] eqn:Hr; [|done].
      apply select_by_id_Some in Hr as [_ Hr]. simpl.
      rewrite bool_decide_false; [done | congruence]. }
    destruct (bool_decide (Donation.status d = Some "Registrada")).
    + destruct (Request.form request !! "donor_name"); simpl.
      * apply Hother.
      * by destruct (photo_supplied request).
    + simpl. apply Hother.
Qed.

(** C3. No sequence of updates changes the token or the creation timestamp
    of a donation: after any run of update requests the table holds the
    same rows in the same places, each with the id, the token and the
    [created_at] it had before. *)
Theorem updates_keep_token_and_created_at numeric_text requests w :
  birth <$> donations (run_updates numeric_text requests w)
  = birth <$> donations w.
Proof.
  unfold run_updates. revert w.
  induction requests as [|[i request] requests IH]; intros w; simpl; [done|].
  rewrite IH. clear IH.
  destruct (update_donation_donations numeric_text i request w)
    as [->|(d & name & phone & email & type & qty & dest & st & photo
            & _ & _ & _ & ->)]; [done|].
  rewrite <- list_fmap_compose. apply list_fmap_ext.
  intros k r _. apply set_columns_birth.
Qed.

(** Whether the UPDATE raises, in terms of the request and the row. *)
Lemma update_donation_raises numeric_text i request w d :
  logged_in w → Request.method request = POST →
  select_by_id i (donations w) = Some d →
  (∃ e, (update_donation numeric_text i request w).1 = raised e)
  ↔ ¬ update_accepted request d.
Proof.
  intros Hlog Hpost Hsel. unfold update_accepted.
  rewrite (update_donation_post _ _ _ _ d) by done.
  destruct (decide (Donation.status d = Some "Registrada")) as [Hst|Hst].
  - rewrite bool_decide_true by done.
    destruct (Request.form request !! "donor_name") as [name|]; simpl.
    + split; [intros [e He]; done | intros []; eauto].
    + split; [intros _ H; by destruct (H Hst) | eauto].
  - rewrite bool_decide_false by done. simpl.
    split; [intros [e He]; done | intros []; done].
Qed.

(** C7, as the code has it.  An update without a photo (no file part, or
    a part with an empty file name) leaves the stored photo reference as it
    was, whatever else the request does.  An update with a photo, posted by
    a logged-in session and accepted by the table (a donor name is in the
    form when the donation is Registrada), stores the reference
    [uploads/donation_<id><ext>] derived from the upload, with [ext] the
    extension of the file name in lower case, in place of the previous
    one, and the upload folder holds the content under that name. *)
Theorem update_photo_reference numeric_text i request w d :
  select_by_id i (donations w) = Some d →
  let w' := (update_donation numeric_text i request w).2 in
  (photo_supplied request = None →
   Donation.photo_path <$> select_by_id i (donations w')
   = Some (Donation.photo_path d))
  ∧ (∀ photo, photo_supplied request = Some photo →
     logged_in w → Request.method request = POST →
     update_accepted request d →
     let fname :=
       "donation_" +:+ pretty i +:+ Py.lower (Py.splitext (filename photo)).2
     in
     Donation.photo_path <$> select_by_id i (donations w')
     = Some (Some ("uploads/" +:+ fname))
     ∧ upload_folder w' !! fname = Some (stream photo)).
Proof.
  intros Hsel w'. subst w'.
  pose proof (select_by_id_Some _ _ _ Hsel) as [_ Hid].
  split.
  - intros Hphoto.
    destruct (decide (logged_in w ∧ Request.method request = POST))
      as [[Hlog Hpost]|Hno]; cycle 1.
    { rewrite update_donation_not_post by done. by rewrite Hsel. }
    rewrite (update_donation_post _ _ _ _ d) by done. rewrite Hphoto.
    destruct (bool_decide (Donation.status d = Some "Registrada"));
      [destruct (Request.form request !! "donor_name")|]; simpl;
      rewrite ?select_by_id_rewritten, Hsel; simpl;
      by rewrite ?bool_decide_true by done.
  - intros photo Hphoto Hlog Hpost Hacc. simpl.
    rewrite (update_donation_post _ _ _ _ d) by done. rewrite Hphoto.
    destruct (decide (Donation.status d = Some "Registrada")) as [Hst|Hst].
    + rewrite bool_decide_true by done.
      destruct (Hacc Hst) as [name ->]. simpl.
      rewrite select_by_id_rewritten, Hsel. simpl.
      rewrite bool_decide_true by done. simpl.
      by rewrite lookup_insert_eq.
    + rewrite bool_decide_false by done. simpl.
      rewrite select_by_id_rewritten, Hsel. simpl.
      rewrite bool_decide_true by done. simpl.
      by rewrite lookup_insert_eq.
Qed.

(** C10, as the code has it.  An update posted by a logged-in session and
    accepted by the table (a donor name is in the form when the donation is
    Registrada) stores the status the form carries, whatever the status
    was; a form without the status field stores NULL and the previous
    status is lost. *)
Theorem update_stores_submitted_status numeric_text i request w d :
  logged_in w → Request.method request = POST →
  select_by_id i (donations w) = Some d →
  update_accepted request d →
  let w' := (update_donation numeric_text i request w).2 in
  Donation.status <$> select_by_id i (donations w')
  = Some (Request.form request !! "status")
  ∧ (Request.form request !! "status" = None →
     Donation.status <$> select_by_id i (donations w') = Some None).
Proof.
  intros Hlog Hpost Hsel Hacc w'. subst w'.
  pose proof (select_by_id_Some _ _ _ Hsel) as [_ Hid].
  assert (Donation.status
            <$> select_by_id i
                  (donations (update_donation numeric_text i request w).2)
          = Some (Request.form request !! "status")) as Hgoal.
  { rewrite (update_donation_post _ _ _ _ d) by done.
    destruct (decide (Donation.status d = Some "Registrada")) as [Hst|Hst].
    - rewrite bool_decide_true by done.
      destruct (Hacc Hst) as [name ->]. simpl.
      rewrite select_by_id_rewritten, Hsel. simpl.
      by rewrite bool_decide_true by done.
    - rewrite bool_decide_false by done. simpl.
      rewrite select_by_id_rewritten, Hsel. simpl.
      by rewrite bool_decide_true by done. }
  split; [done|]. intros Hnone. by rewrite Hgoal, Hnone.
Qed.

(** ** Deleting *)

Lemma select_by_id_filter_ne i j ds :
  j ≠ i →
  select_by_id j (filter (λ d, Donation.id d ≠ i) ds) = select_by_id j ds.
Proof.
  intros Hj. unfold select_by_id.
  induction ds as [|d ds IH]; [done|].
  rewrite filter_cons. destruct (decide (Donation.id d ≠ i)) as [Hd|Hd]; simpl.
  - by rewrite IH.
  - rewrite IH. rewrite bool_decide_false; [done|].
    intros Heq. apply Hd. congruence.
Qed.

Lemma select_by_id_filter_eq i ds :
  select_by_id i (filter (λ d, Donation.id d ≠ i) ds) = None.
Proof.
  unfold select_by_id. induction ds as [|d ds IH]; [done|].
  rewrite filter_cons. destruct (decide (Donation.id d ≠ i)) as [Hd|Hd]; simpl.
  - by rewrite bool_decide_false.
  - done.
Qed.

(** A session that [login] and [logout] made holds a role only when it is
    logged in. *)
Lemma role_only_when_logged_in w role :
  session w = ∅ ∨ session w !! "logged_in" = Some (PyBool true) →
  session w !! "role" = Some role → logged_in w.
Proof.
  intros [Hs|Hs] Hrole.
  - by rewrite Hs, lookup_empty in Hrole.
  - unfold logged_in. by rewrite Hs.
Qed.

(** C2, as the code has it.  For an existing donation, [delete_donation]
    removes the row if and only if the session is logged in, its role is
    "admin" and the status of the donation is "Registrada"; the other rows
    stay.  In every other case the world, and with it the row and all its
    fields, is unchanged, and the response is a redirect to the login page
    for a session that is not logged in, 403 for a logged-in session whose
    role is not "admin", and 400 for an admin when the status is not
    "Registrada".  For the sessions [login] and [logout] make, which hold
    a role only when logged in, the row is removed if and only if the role
    is "admin" and the status is "Registrada". *)
Theorem delete_donation_policy i request w d :
  select_by_id i (donations w) = Some d →
  let response := (delete_donation i request w).1 in
  let w' := (delete_donation i request w).2 in
  let admin := session w !! "role" = Some (PyStr "admin") in
  let registrada := Donation.status d = Some "Registrada" in
  (select_by_id i (donations w') = None
   ↔ logged_in w ∧ admin ∧ registrada)
  ∧ (logged_in w → admin → registrada →
     response = redirect url_admin_list
     ∧ donations w' = filter (λ r, Donation.id r ≠ i) (donations w)
     ∧ ∀ j, j ≠ i →
         select_by_id j (donations w') = select_by_id j (donations w))
  ∧ (logged_in w → admin → ¬ registrada →
     response = text_status msg_only_registrada 400 ∧ w' = w)
  ∧ (logged_in w → ¬ admin →
     response = text_status msg_no_permission 403 ∧ w' = w)
  ∧ (¬ logged_in w →
     response = redirect (url_login (Some (Request.path request)))
     ∧ w' = w)
  ∧ (session w = ∅ ∨ session w !! "logged_in" = Some (PyBool true) →
     select_by_id i (donations w') = None ↔ admin ∧ registrada).
Proof.
  intros Hsel. simpl.
  cut ((select_by_id i (donations (delete_donation i request w).2) = None
        ↔ logged_in w ∧ session w !! "role" = Some (PyStr "admin")
          ∧ Donation.status d = Some "Registrada")
       ∧ (logged_in w → session w !! "role" = Some (PyStr "admin") →
          Donation.status d = Some "Registrada" →
          (delete_donation i request w).1 = redirect url_admin_list
          ∧ donations (delete_donation i request w).2
            = filter (λ r, Donation.id r ≠ i) (donations w)
          ∧ ∀ j, j ≠ i →
              select_by_id j (donations (delete_donation i request w).2)
              = select_by_id j (donations w))
       ∧ (logged_in w → session w !! "role" = Some (PyStr "admin") →
          ¬ Donation.status d = Some "Registrada" →
          (delete_donation i request w).1
          = text_status msg_only_registrada 400
          ∧ (delete_donation i request w).2 = w)
       ∧ (logged_in w → ¬ session w !! "role" = Some (PyStr "admin") →
          (delete_donation i request w).1
          = text_status msg_no_permission 403
          ∧ (delete_donation i request w).2 = w)
       ∧ (¬ logged_in w →
          (delete_donation i request w).1
          = redirect (url_login (Some (Request.path request)))
          ∧ (delete_donation i request w).2 = w)).
  { intros (Hiff & H1 & H2 & H3 & H4). split_and!; try done.
    intros Hses. rewrite Hiff. split; [tauto|].
    intros [Hrole Hst]. split_and!; [|done..].
    by apply (role_only_when_logged_in w (PyStr "admin")). }
  unfold delete_donation.
  destruct (decide (logged_in w)) as [Hlog|Hlog]; cycle 1.
  { rewrite login_required_anonymous by done. simpl. rewrite Hsel.
    split_and!; try done. split; [done | by intros [? _]]. }
  rewrite login_required_logged_in by done. unfold role_required.
  destruct (decide (session w !! "role" = Some (PyStr "admin")))
    as [Hrole|Hrole]; cycle 1.
  { rewrite bool_decide_true; cycle 1.
    { intros Heq. apply Hrole.
      destruct (session w !! "role") as [v|]; simpl in Heq; congruence. }
    simpl. rewrite Hsel.
    split_and!; try done. split; [done | by intros (_ & ? & _)]. }
  rewrite bool_decide_false by (rewrite Hrole; simpl; auto).
  rewrite Hsel.
  destruct (decide (Donation.status d = Some "Registrada")) as [Hst|Hst].
  - rewrite bool_decide_false by auto. simpl.
    split_and!; try done.
    + split; [done | intros _; apply select_by_id_filter_eq].
    + intros _ _ _. split_and!; [done..|].
      intros j Hj. by apply select_by_id_filter_ne.
  - rewrite bool_decide_true by done. simpl. rewrite Hsel.
    split_and!; try done. split; [done | by intros (_ & _ & ?)].
Qed.

(** ** The public tracking page *)

Lemma select_by_token_None token ds :
  (∀ d, d ∈ ds → Donation.token d ≠ Some token) →
  select_by_token token ds = None.
Proof.
  intros Hno. unfold select_by_token.
  induction ds as [|d ds IH]; simpl; [done|].
  rewrite bool_decide_false by (apply Hno; left).
  apply IH. intros r Hr. apply Hno. by right.
Qed.

Lemma select_by_token_unique token ds d :
  NoDup (omap Donation.token ds) →
  d ∈ ds → Donation.token d = Some token →
  select_by_token token ds = Some d.
Proof.
  unfold select_by_token. intros Hnd Hin Htok.
  induction ds as [|r ds IH]; [by apply elem_of_nil in Hin|].
  simpl in *. apply elem_of_cons in Hin as [<-|Hin].
  - by rewrite bool_decide_true.
  - destruct (Donation.token r) as [t|] eqn:Hr; simpl in Hnd.
    + apply NoDup_cons in Hnd as [Hnot Hnd].
      rewrite bool_decide_false; [by apply IH|].
      intros [= ->]. apply Hnot. apply list_elem_of_omap. eauto.
    + rewrite bool_decide_false by done. by apply IH.
Qed.

(** C6. [track_donation] answers 404 when no donation of the table has the
    token.  When a donation has it, the tokens of the table being unique,
    the page is rendered with that donation, every column as it is stored,
    its status and its photo reference among them.  The world is the same
    after the request in both cases. *)
Theorem track_donation_reads token request w :
  NoDup (omap Donation.token (donations w)) →
  (track_donation token request w).2 = w
  ∧ ((∀ d, d ∈ donations w → Donation.token d ≠ Some token) →
     (track_donation token request w).1 = abort 404)
  ∧ (∀ d, d ∈ donations w → Donation.token d = Some token →
     (track_donation token request w).1
     = render_template
         (track_html d (url_track_donation token)
            (url_whatsapp (url_track_donation token)))).
Proof.
  intros Hnd. unfold track_donation. split_and!.
  - by destruct (select_by_token token (donations w)).
  - intros Hno. by rewrite select_by_token_None.
  - intros d Hin Htok. by rewrite (select_by_token_unique _ _ d).
Qed.

(** ** Logging in *)

Lemma select_user_Some username password us u :
  select_user username password us = Some u →
  u ∈ us ∧ credentials_match username password u.
Proof.
  unfold select_user. intros H. apply find_some in H as [Hin Hm].
  apply andb_true_iff in Hm as [H1 H2].
  apply bool_decide_eq_true in H1. apply bool_decide_eq_true in H2.
  split; [by apply list_elem_of_In | done].
Qed.

Lemma select_user_None username password us :
  select_user username password us = None →
  ∀ u, u ∈ us → ¬ credentials_match username password u.
Proof.
  unfold select_user. intros H u Hin [H1 H2].
  apply list_elem_of_In in Hin.
  pose proof (find_none _ _ H u Hin) as Hno. simpl in Hno.
  by rewrite !bool_decide_true in Hno by done.
Qed.

(** C9, as the code has it.  [login] strips the white space around the
    submitted username and password first.  It succeeds, with a redirect
    and a session that holds [logged_in = True] and the id, the username
    and the role of a stored user, if and only if the username and the
    password of some stored user equal the stripped values character for
    character.  When no stored user does, the world, and with it the
    session, is unchanged and the login page comes back with the error. *)
Theorem login_establishes_session request w :
  Request.method request = POST →
  let username :=
    Py.strip (default EmptyString (Request.form request !! "username")) in
  let password :=
    Py.strip (default EmptyString (Request.form request !! "password")) in
  let response := (login request w).1 in
  let w' := (login request w).2 in
  let stored := ∃ u, u ∈ users w ∧ credentials_match username password u in
  ((∃ location, response = redirect location) ↔ stored)
  ∧ (stored →
     ∃ u, u ∈ users w ∧ credentials_match username password u
          ∧ session w' !! "logged_in" = Some (PyBool true)
          ∧ session w' !! "user_id" = Some (PyInt (Z.of_N (User.id u)))
          ∧ session w' !! "username" = Some (PyStr username)
          ∧ session w' !! "role" = Some (py_of_text (User.role u))
          ∧ donations w' = donations w ∧ users w' = users w)
  ∧ (¬ stored →
     w' = w
     ∧ response = render_template (login_html (Some msg_bad_credentials))).
Proof.
  intros Hpost. simpl. unfold login. rewrite Hpost.
  destruct (select_user _ _ (users w)) as [u|] eqn:Hsel.
  - apply select_user_Some in Hsel as [Hin Hm]. simpl.
    split_and!.
    + split; eauto.
    + intros _. exists u. split_and!; try done.
      * by simplify_map_eq.
      * by simplify_map_eq.
      * destruct Hm as [-> _]. by simplify_map_eq.
      * by simplify_map_eq.
    + intros Hno. destruct Hno. eauto.
  - pose proof (select_user_None _ _ _ Hsel) as Hno. simpl.
    split_and!.
    + split; [by intros [? ?] | intros (u & Hin & Hm); by destruct (Hno u)].
    + intros (u & Hin & Hm). by destruct (Hno u).
    + done.
Qed.

(** ** Tokens *)

Lemma digit_facts (i : N) :
  (i < 64)%N →
  Base64.url_safe (Base64.urlsafe_char (Base64.digit i)) = true
  ∧ url_index (Base64.urlsafe_char (Base64.digit i)) = i.
Proof.
  intros Hi. rewrite <- (N2Nat.id i).
  assert (N.to_nat i < 64)%nat as Hn by lia.
  generalize dependent (N.to_nat i). clear. intros n Hn.
  do 64 (destruct n as [|n]; [by vm_compute|]). lia.
Qed.

Lemma byte_bounded (b : byte) : (Byte.to_N b < 256)%N.
Proof. pose proof (Byte.to_N_bounded b). lia. Qed.

Lemma byte_to_N_inj (a b : byte) : Byte.to_N a = Byte.to_N b → a = b.
Proof.
  intros Heq. pose proof (Byte.of_to_N a) as Ha.
  rewrite Heq, Byte.of_to_N in Ha. congruence.
Qed.

Lemma rstrip_by_none p s :
  Forall (λ c, p c = false) (list_ascii_of_string s) →
  Py.rstrip_by p s = s.
Proof.
  induction s as [|c s IH]; simpl; [done|].
  intros [Hc Hs]%Forall_cons. rewrite (IH Hs).
  destruct s; [by rewrite Hc | done].
Qed.

(** The digits of a whole number of triples: four URL-safe characters per
    triple, and nothing lost. *)
Lemma urlsafe_b64encode_triples k bs :
  length bs = (3 * k)%nat →
  length (Base64.urlsafe_b64encode bs) = (4 * k)%nat
  ∧ Forall (λ c, Base64.url_safe c = true) (Base64.urlsafe_b64encode bs).
Proof.
  revert bs. induction k as [|k IH]; intros bs Hlen.
  { destruct bs; [by split; [|constructor] | simpl in Hlen; lia]. }
  destruct bs as [|a [|b [|c rest]]]; simpl in Hlen; try lia.
  destruct (IH rest) as [IHlen IHsafe]; [lia|].
  unfold Base64.urlsafe_b64encode in *. cbn [Base64.b64encode map length].
  pose proof (byte_bounded a). pose proof (byte_bounded b).
  pose proof (byte_bounded c).
  split; [lia|].
  repeat (apply Forall_cons; split); [..|done];
    apply digit_facts.
  - apply N.Div0.div_lt_upper_bound; lia.
  - pose proof (N.mod_upper_bound (Byte.to_N a) 4).
    assert (Byte.to_N b / 16 < 16)%N
      by (apply N.Div0.div_lt_upper_bound; lia). lia.
  - pose proof (N.mod_upper_bound (Byte.to_N b) 16).
    assert (Byte.to_N c / 64 < 4)%N
      by (apply N.Div0.div_lt_upper_bound; lia). lia.
  - apply N.mod_upper_bound; lia.
Qed.

Lemma triple_inj (a b c a' b' c' : N) :
  (a < 256 → b < 256 → c < 256 → a' < 256 → b' < 256 → c' < 256 →
   a / 4 = a' / 4 →
   (a mod 4) * 16 + b / 16 = (a' mod 4) * 16 + b' / 16 →
   (b mod 16) * 4 + c / 64 = (b' mod 16) * 4 + c' / 64 →
   c mod 64 = c' mod 64 →
   a = a' ∧ b = b' ∧ c = c')%N.
Proof.
  intros.
  pose proof (N.div_mod a 4). pose proof (N.div_mod a' 4).
  pose proof (N.div_mod b 16). pose proof (N.div_mod b' 16).
  pose proof (N.div_mod c 64). pose proof (N.div_mod c' 64).
  pose proof (N.mod_upper_bound a 4). pose proof (N.mod_upper_bound a' 4).
  pose proof (N.mod_upper_bound b 16). pose proof (N.mod_upper_bound b' 16).
  pose proof (N.mod_upper_bound c 64). pose proof (N.mod_upper_bound c' 64).
  assert (b / 16 < 16)%N by (apply N.Div0.div_lt_upper_bound; lia).
  assert (b' / 16 < 16)%N by (apply N.Div0.div_lt_upper_bound; lia).
  assert (c / 64 < 4)%N by (apply N.Div0.div_lt_upper_bound; lia).
  assert (c' / 64 < 4)%N by (apply N.Div0.div_lt_upper_bound; lia).
  lia.
Qed.

Lemma urlsafe_digit_inj (i j : N) :
  (i < 64)%N → (j < 64)%N →
  Base64.urlsafe_char (Base64.digit i) = Base64.urlsafe_char (Base64.digit j) →
  i = j.
Proof.
  intros Hi Hj Heq.
  destruct (digit_facts i Hi) as [_ <-].
  destruct (digit_facts j Hj) as [_ <-]. by rewrite Heq.
Qed.

Lemma urlsafe_b64encode_inj k bs bs' :
  length bs = (3 * k)%nat → length bs' = (3 * k)%nat →
  Base64.urlsafe_b64encode bs = Base64.urlsafe_b64encode bs' →
  bs = bs'.
Proof.
  revert bs bs'. induction k as [|k IH]; intros bs bs' Hlen Hlen' Heq.
  { destruct bs, bs'; simpl in *; (done || lia). }
  destruct bs as [|a [|b [|c rest]]]; simpl in Hlen; try lia.
  destruct bs' as [|a' [|b' [|c' rest']]]; simpl in Hlen'; try lia.
  unfold Base64.urlsafe_b64encode in *.
  cbn [Base64.b64encode map] in Heq.
  injection Heq as H1 H2 H3 H4 Hrest.
  pose proof (byte_bounded a). pose proof (byte_bounded b).
  pose proof (byte_bounded c). pose proof (byte_bounded a').
  pose proof (byte_bounded b'). pose proof (byte_bounded c').
  apply urlsafe_digit_inj in H1; cycle 1.
  { apply N.Div0.div_lt_upper_bound; lia. }
  { apply N.Div0.div_lt_upper_bound; lia. }
  apply urlsafe_digit_inj in H4; cycle 1.
  { apply N.mod_upper_bound; lia. }
  { apply N.mod_upper_bound; lia. }
  apply urlsafe_digit_inj in H2; cycle 1.
  { pose proof (N.mod_upper_bound (Byte.to_N a) 4).
    assert (Byte.to_N b / 16 < 16)%N
      by (apply N.Div0.div_lt_upper_bound; lia). lia. }
  { pose proof (N.mod_upper_bound (Byte.to_N a') 4).
    assert (Byte.to_N b' / 16 < 16)%N
      by (apply N.Div0.div_lt_upper_bound; lia). lia. }
  apply urlsafe_digit_inj in H3; cycle 1.
  { pose proof (N.mod_upper_bound (Byte.to_N b) 16).
    assert (Byte.to_N c / 64 < 4)%N
      by (apply N.Div0.div_lt_upper_bound; lia). lia. }
  { pose proof (N.mod_upper_bound (Byte.to_N b') 16).
    assert (Byte.to_N c' / 64 < 4)%N
      by (apply N.Div0.div_lt_upper_bound; lia). lia. }
  destruct (triple_inj _ _ _ _ _ _ H H0 H5 H6 H7 H8 H1 H2 H3 H4)
    as (Ha & Hb & Hc).
  apply byte_to_N_inj in Ha, Hb, Hc. subst.
  f_equal. f_equal. f_equal. by apply (IH rest rest'); [lia..|].
Qed.

Lemma url_safe_not_pad c :
  Base64.url_safe c = true → Ascii.eqb c "=" = false.
Proof.
  intros Hc. destruct (Ascii.eqb_spec c "="%char) as [->|]; [|done].
  by vm_compute in Hc.
Qed.

(** What [generate_token] returns when the random source gives the twelve
    bytes it is asked for. *)
Lemma generate_token_encoding token_bytes :
  length (token_bytes 12%nat) = 12%nat →
  generate_token token_bytes
  = string_of_list_ascii (Base64.urlsafe_b64encode (token_bytes 12%nat)).
Proof.
  intros Hlen. unfold generate_token, token_urlsafe.
  apply rstrip_by_none. rewrite list_ascii_of_string_of_list_ascii.
  destruct (urlsafe_b64encode_triples 4 (token_bytes 12%nat) Hlen)
    as [_ Hsafe].
  eapply Forall_impl; [exact Hsafe|]. intros c. apply url_safe_not_pad.
Qed.

(** ** Creating *)

Lemma next_rowid_fresh seq ids i :
  i ∈ ids → (i < next_rowid seq ids)%N.
Proof.
  unfold next_rowid. induction ids as [|x ids IH]; intros Hin.
  - by apply elem_of_nil in Hin.
  - simpl. apply elem_of_cons in Hin as [->|Hin]; [lia|].
    specialize (IH Hin). lia.
Qed.

Lemma token_taken_iff token ds :
  existsb (λ d, bool_decide (Donation.token d = Some token)) ds = true
  ↔ ∃ d, d ∈ ds ∧ Donation.token d = Some token.
Proof.
  rewrite existsb_exists. split; intros (d & Hin & Hd); exists d.
  - split; [by apply list_elem_of_In | by apply bool_decide_eq_true in Hd].
  - split; [by apply list_elem_of_In | by apply bool_decide_eq_true].
Qed.

Lemma select_by_token_last token ds d :
  (∀ r, r ∈ ds → Donation.token r ≠ Some token) →
  Donation.token d = Some token →
  select_by_token token (ds ++ [d]) = Some d.
Proof.
  intros Hno Hd. unfold select_by_token.
  induction ds as [|r ds IH]; simpl.
  - by rewrite bool_decide_true.
  - rewrite bool_decide_false by (apply Hno; left).
    apply IH. intros x Hx. apply Hno. by right.
Qed.

(** Every branch of [new_donation] for a request that reaches the INSERT. *)
Lemma new_donation_post numeric_text now token_bytes request w :
  logged_in w → Request.method request = POST →
  new_donation numeric_text now token_bytes request w =
  match Request.form request !! "donor_name" with
  | None => (raised IntegrityError_not_null_donor_name, w)
  | Some name =>
      let token := generate_token token_bytes in
      if existsb (λ d, bool_decide (Donation.token d = Some token))
           (donations w)
      then (raised IntegrityError_unique_token, w)
      else
        (redirect (url_donation_qr (Some token)),
         set_qr_folder
           (<["qr_" +:+ token +:+ ".png" := url_track_donation token]>
              (qr_folder w))
           (set_donations
              (donations w
               ++ [new_row numeric_text now token_bytes request w name])
              (next_rowid (donations_seq w) (Donation.id <$> donations w))
              w))
  end.
Proof.
  intros Hlog Hpost. unfold new_donation.
  rewrite login_required_logged_in by done. rewrite Hpost.
  unfold insert_donation.
  destruct (Request.form request !! "donor_name") as [name|]; [|done].
  simpl. by destruct (existsb _ (donations w)).
Qed.

Lemma new_donation_not_post numeric_text now token_bytes request w :
  ¬ (logged_in w ∧ Request.method request = POST) →
  (new_donation numeric_text now token_bytes request w).2 = w.
Proof.
  intros Hno. unfold new_donation.
  destruct (decide (logged_in w)) as [Hlog|Hlog].
  - rewrite login_required_logged_in by done.
    destruct (Request.method request); [done|]. destruct Hno; done.
  - by rewrite login_required_anonymous.
Qed.

(** C4, as the code has it.  A create request (a POST of a logged-in
    session) that carries a donor name, and whose generated token no stored
    donation has yet, succeeds: the table gains one row, with a new id, the
    donor name of the form, status "Registrada", no photo, the generated
    token and the current time as [created_at]; when the quantity field is
    missing or empty the stored quantity is the integer 0; the QR folder
    holds the image of the tracking URL of the token; the response
    redirects to the QR page of the token. *)
Theorem new_donation_creates numeric_text now token_bytes request w name :
  logged_in w → Request.method request = POST →
  Request.form request !! "donor_name" = Some name →
  let token := generate_token token_bytes in
  (∀ d, d ∈ donations w → Donation.token d ≠ Some token) →
  let response := (new_donation numeric_text now token_bytes request w).1 in
  let w' := (new_donation numeric_text now token_bytes request w).2 in
  ∃ d,
    response = redirect (url_donation_qr (Some token))
    ∧ donations w' = donations w ++ [d]
    ∧ select_by_token token (donations w') = Some d
    ∧ (Donation.id d ∉ Donation.id <$> donations w)
    ∧ Donation.donor_name d = name
    ∧ Donation.status d = Some "Registrada"
    ∧ Donation.photo_path d = None
    ∧ Donation.token d = Some token
    ∧ Donation.created_at d = Some now
    ∧ ((Request.form request !! "quantity" = None
        ∨ Request.form request !! "quantity" = Some EmptyString) →
       Donation.quantity d = Sql.Integer 0)
    ∧ qr_folder w' !! ("qr_" +:+ token +:+ ".png")
      = Some (url_track_donation token).
Proof.
  intros Hlog Hpost Hname token Hfresh. simpl.
  rewrite new_donation_post by done. rewrite Hname. simpl.
  destruct (existsb _ (donations w)) eqn:Htaken.
  { apply token_taken_iff in Htaken as (d & Hin & Hd).
    by destruct (Hfresh d Hin). }
  simpl. eexists. split_and!; try done.
  - by apply select_by_token_last.
  - simpl. intros Hin. apply (next_rowid_fresh (donations_seq w)) in Hin. lia.
  - simpl. by intros [->| ->].
  - by rewrite lookup_insert_eq.
Qed.

(** C8, as the code has it.  [generate_token] encodes twelve random bytes:
    the token has sixteen characters, all of them URL-safe, and two
    different runs of twelve bytes never give the same token, so it
    carries twelve bytes of entropy.  [new_donation] draws the token once.
    When a stored donation already has it, the INSERT raises the
    uniqueness error and the world is unchanged: no row, no QR image.
    When no stored donation has it, the creation goes through. *)
Theorem generate_token_drawn_once numeric_text now token_bytes request w name :
  length (token_bytes 12%nat) = 12%nat →
  logged_in w → Request.method request = POST →
  Request.form request !! "donor_name" = Some name →
  let token := generate_token token_bytes in
  String.length token = 16%nat
  ∧ Forall (λ c, Base64.url_safe c = true) (list_ascii_of_string token)
  ∧ (∀ token_bytes', length (token_bytes' 12%nat) = 12%nat →
     generate_token token_bytes' = token →
     token_bytes' 12%nat = token_bytes 12%nat)
  ∧ ((∃ d, d ∈ donations w ∧ Donation.token d = Some token) →
     new_donation numeric_text now token_bytes request w
     = (raised IntegrityError_unique_token, w))
  ∧ ((∀ d, d ∈ donations w → Donation.token d ≠ Some token) →
     (new_donation numeric_text now token_bytes request w).1
     = redirect (url_donation_qr (Some token))).
Proof.
  intros Hlen Hlog Hpost Hname token. subst token.
  destruct (urlsafe_b64encode_triples 4 _ Hlen) as [Hlen16 Hsafe].
  split_and!.
  - rewrite generate_token_encoding by done.
    transitivity (length (Base64.urlsafe_b64encode (token_bytes 12%nat)));
      [|exact Hlen16].
    clear. induction (Base64.urlsafe_b64encode _); simpl; congruence.
  - rewrite generate_token_encoding by done.
    by rewrite list_ascii_of_string_of_list_ascii.
  - intros tb' Hlen' Heq. rewrite !generate_token_encoding in Heq by done.
    apply (f_equal list_ascii_of_string) in Heq.
    rewrite !list_ascii_of_string_of_list_ascii in Heq.
    by apply (urlsafe_b64encode_inj 4).
  - intros Htaken%token_taken_iff. rewrite new_donation_post by done.
    rewrite Hname. simpl. by rewrite Htaken.
  - intros Hfresh. rewrite new_donation_post by done.
    rewrite Hname. simpl.
    destruct (existsb _ (donations w)) eqn:Htaken; [|done].
    apply token_taken_iff in Htaken as (d & Hin & Hd).
    by destruct (Hfresh d Hin).
Qed.

(** ** Searching *)

Lemma append_cons c s t : String c s +:+ t = String c (s +:+ t).
Proof. done. Qed.

Lemma append_nil t : EmptyString +:+ t = t.
Proof. done. Qed.

Lemma like_percent p s :
  Sql.like_match (String "%" p) s
  = Sql.like_match p s
    || match s with
       | String _ s' => Sql.like_match (String "%" p) s'
       | EmptyString => false
       end.
Proof. by destruct s. Qed.

Lemma like_literal c p s :
  Ascii.eqb c "%" || Ascii.eqb c "_" = false →
  Sql.like_match (String c p) s
  = match s with
    | String x s' =>
        Ascii.eqb (Sql.fold_case c) (Sql.fold_case x) && Sql.like_match p s'
    | EmptyString => false
    end.
Proof.
  intros [H1 H2]%orb_false_iff. simpl. rewrite H1, H2. by destruct s.
Qed.

Lemma like_percent_iff p s :
  Sql.like_match (String "%" p) s = true
  ↔ ∃ pre post, s = pre +:+ post ∧ Sql.like_match p post = true.
Proof.
  induction s as [|x s IH]; rewrite like_percent.
  - rewrite orb_false_r. split.
    + intros H. by exists EmptyString, EmptyString.
    + intros (pre & post & Heq & H). destruct pre; [|done].
      rewrite append_nil in Heq. by subst.
  - rewrite orb_true_iff, IH. split.
    + intros [H|(pre & post & -> & H)].
      * by exists EmptyString, (String x s).
      * by exists (String x pre), post.
    + intros (pre & post & Heq & H). destruct pre as [|y pre].
      * rewrite append_nil in Heq. subst. by left.
      * rewrite append_cons in Heq. injection Heq as -> ->. right. eauto.
Qed.

Lemma like_text_iff q p s :
  no_wildcard q →
  Sql.like_match (q +:+ p) s = true
  ↔ ∃ mid post, s = mid +:+ post ∧ fold_text mid = fold_text q
                ∧ Sql.like_match p post = true.
Proof.
  unfold no_wildcard. revert s. induction q as [|c q IH]; intros s Hq.
  - rewrite append_nil. split.
    + intros H. by exists EmptyString, s.
    + intros (mid & post & -> & Hmid & H). by destruct mid.
  - simpl in Hq. apply orb_false_iff in Hq as [Hc Hq].
    rewrite append_cons, like_literal by done.
    destruct s as [|x s].
    { split; [done|]. intros (mid & post & Heq & Hmid & _).
      destruct mid; [done | by rewrite append_cons in Heq]. }
    rewrite andb_true_iff, IH by done. split.
    + intros [Hx (mid & post & -> & Hmid & H)].
      exists (String x mid), post. split_and!; [done| |done].
      simpl. apply Ascii.eqb_eq in Hx. by rewrite Hmid, Hx.
    + intros (mid & post & Heq & Hmid & H).
      destruct mid as [|y mid]; [done|].
      rewrite append_cons in Heq. injection Heq as -> ->.
      simpl in Hmid. injection Hmid as Hy Hmid.
      split; [apply Ascii.eqb_eq; done | eauto].
Qed.

Lemma append_nil_r s : s +:+ EmptyString = s.
Proof. induction s as [|c s IH]; [done|]. by rewrite append_cons, IH. Qed.

Lemma like_percent_all s : Sql.like_match "%" s = true.
Proof.
  apply like_percent_iff. exists s, EmptyString. by rewrite append_nil_r.
Qed.

(** The pattern of the search box on a text without wildcards: the text
    occurs in the column up to the case of ASCII letters. *)
Lemma like_search_iff q v :
  no_wildcard q →
  Sql.like_match ("%" +:+ q +:+ "%") v = true ↔ occurs_folded q v.
Proof.
  intros Hq. rewrite append_cons, append_nil, like_percent_iff.
  unfold occurs_folded. split.
  - intros (pre & rest & -> & (mid & post & -> & Hmid & _)%like_text_iff);
      [|done].
    by exists pre, mid, post.
  - intros (pre & mid & post & -> & Hmid).
    exists pre, (mid +:+ post). split; [done|].
    apply like_text_iff; [done|].
    exists mid, post. split_and!; [done..|]. apply like_percent_all.
Qed.

Lemma conj_true a b :
  Sql.conj a b = Some true ↔ a = Some true ∧ b = Some true.
Proof. destruct a as [[]|], b as [[]|]; simpl; intuition congruence. Qed.

Lemma disj_true a b :
  Sql.disj a b = Some true ↔ a = Some true ∨ b = Some true.
Proof. destruct a as [[]|], b as [[]|]; simpl; intuition congruence. Qed.

Lemma like_true x pattern :
  Sql.like x pattern = Some true
  ↔ match x with Some v => Sql.like_match pattern v | None => false end
    = true.
Proof.
  destruct x as [v|]; simpl; [|done].
  split; [by intros [= ->] | by intros ->].
Qed.

Lemma truthy_empty s : Py.truthy s = false ↔ s = EmptyString.
Proof. by destruct s. Qed.

Lemma equals_true x v :
  Sql.equals x v = Some true ↔ x = Some v.
Proof.
  destruct x as [s|]; simpl; [|done]. split.
  - intros [= H]. apply bool_decide_eq_true in H. by subst.
  - intros [= ->]. by rewrite bool_decide_true.
Qed.

Lemma search_clause q d :
  eval_where
    (W_or (W_like Col.donor_name ("%" +:+ q +:+ "%"))
    (W_or (W_like Col.donor_phone ("%" +:+ q +:+ "%"))
    (W_or (W_like Col.donor_email ("%" +:+ q +:+ "%"))
    (W_or (W_like Col.donation_type ("%" +:+ q +:+ "%"))
    (W_or (W_like Col.destination ("%" +:+ q +:+ "%"))
          (W_like Col.token ("%" +:+ q +:+ "%"))))))) d = Some true
  ↔ matches_query q d = true.
Proof.
  unfold matches_query, searched_columns.
  cbn [eval_where existsb].
  rewrite !disj_true, !like_true, !orb_true_iff.
  intuition congruence.
Qed.

(** The clause [admin_list] builds keeps exactly the rows of [listed]. *)
Lemma admin_list_where q status_filter d :
  let sql := W_true in
  let sql :=
    if Py.truthy q then
      let like := "%" +:+ q +:+ "%" in
      W_and sql
        (W_or (W_like Col.donor_name like)
        (W_or (W_like Col.donor_phone like)
        (W_or (W_like Col.donor_email like)
        (W_or (W_like Col.donation_type like)
        (W_or (W_like Col.destination like)
              (W_like Col.token like))))))
    else sql in
  let sql :=
    if Py.truthy status_filter then W_and sql (W_eq Col.status status_filter)
    else sql in
  eval_where sql d = Some true ↔ listed q status_filter d = true.
Proof.
  cbv zeta. unfold listed.
  rewrite andb_true_iff, !orb_true_iff, bool_decide_eq_true.
  assert (∀ a b, eval_where (W_and a b) d
                 = Sql.conj (eval_where a d) (eval_where b d)) as Hand
    by done.
  destruct (Py.truthy q), (Py.truthy status_filter); cbn [negb];
    rewrite ?Hand, ?conj_true, ?search_clause; cbn [eval_where];
    rewrite ?equals_true; simpl (Col.get _ _);
    intuition congruence.
Qed.

Lemma prefix_app (s t : string) :
  String.prefix s t = true → ∃ post, t = s +:+ post.
Proof.
  revert t. induction s as [|c s IH]; intros t H.
  - by exists t.
  - destruct t as [|x t]; [done|]. simpl in H.
    destruct (ascii_dec c x) as [->|]; [|done].
    destruct (IH t H) as [post ->]. by exists post.
Qed.

(** A text that holds the search text character for character holds it up
    to case. *)
Lemma contains_occurs_folded q v :
  contains q v = true → occurs_folded q v.
Proof.
  induction v as [|x v IH]; cbn [contains]; rewrite orb_true_iff.
  - intros [[post Hpost]%prefix_app|]; [|done].
    exists EmptyString, q, post. split; [exact Hpost | done].
  - intros [[post Hpost]%prefix_app|(pre & mid & post & -> & Hmid)%IH].
    + exists EmptyString, q, post. split; [exact Hpost | done].
    + by exists (String x pre), mid, post.
Qed.

Lemma matches_query_iff q d :
  no_wildcard q →
  matches_query q d = true
  ↔ ∃ c v, c ∈ searched_columns ∧ Col.get c d = Some v ∧ occurs_folded q v.
Proof.
  intros Hq. unfold matches_query. rewrite existsb_exists. split.
  - intros (c & Hin & Hc). apply list_elem_of_In in Hin.
    destruct (Col.get c d) as [v|] eqn:Hv; [|done].
    exists c, v. split_and!; [done..|]. by apply like_search_iff.
  - intros (c & v & Hin & Hv & Hocc). exists c.
    split; [by apply list_elem_of_In|]. rewrite Hv. by apply like_search_iff.
Qed.

(** C5, as the code has it.  For a logged-in session, [admin_list] strips
    the white space around the search text and the status filter and shows
    exactly the donations of the table (each as often as it is there) that
    pass both: a search text that is not empty keeps the rows where one of
    donor name, phone, email, donation type, destination or token is not
    NULL and matches the LIKE pattern [%q%]; a status filter that is not
    empty keeps the rows whose status equals it exactly.  The rows come
    ordered by creation time, latest first.  LIKE takes [%] and [_] in the
    search text as wildcards and ignores the case of ASCII letters: for a
    text without wildcards a column matches when the text occurs in it up
    to the case of ASCII letters, and so whenever the text occurs in it
    character for character. *)
Theorem admin_list_rows request w :
  logged_in w →
  let q := Py.strip (default EmptyString (Request.args request !! "q")) in
  let status_filter :=
    Py.strip (default EmptyString (Request.args request !! "status")) in
  ∃ rows,
    admin_list request w
    = (render_template (admin_list_html rows q status_filter), w)
    ∧ rows ≡ₚ filter (λ d, listed q status_filter d = true) (donations w)
    ∧ StronglySorted created_at_desc rows
    ∧ (∀ d, d ∈ rows ↔
            d ∈ donations w
            ∧ (q = EmptyString ∨ matches_query q d = true)
            ∧ (status_filter = EmptyString
               ∨ Donation.status d = Some status_filter))
    ∧ (no_wildcard q → ∀ d,
         (matches_query q d = true
          ↔ ∃ c v, c ∈ searched_columns ∧ Col.get c d = Some v
                   ∧ occurs_folded q v)
         ∧ (∀ c, c ∈ searched_columns → contains_in_column q d c = true →
            matches_query q d = true)).
Proof.
  intros Hlog q status_filter.
  unfold admin_list. rewrite login_required_logged_in by done.
  fold q. fold status_filter. cbv zeta.
  eexists. split; [reflexivity|].
  unfold order_by_created_at_desc, select_where.
  rewrite (list_filter_iff _ (λ d, listed q status_filter d = true))
    by (intros d; apply (admin_list_where q status_filter d)).
  assert (merge_sort created_at_desc
            (filter (λ d, listed q status_filter d = true) (donations w))
          ≡ₚ filter (λ d, listed q status_filter d = true) (donations w))
    as Hperm by apply merge_sort_Permutation.
  split_and!.
  - exact Hperm.
  - apply StronglySorted_merge_sort; apply _.
  - intros d. rewrite Hperm, list_elem_of_filter. unfold listed.
    rewrite andb_true_iff, !orb_true_iff, !negb_true_iff, !truthy_empty,
      bool_decide_eq_true.
    tauto.
  - intros Hq d. split; [by apply matches_query_iff|].
    intros c Hc Hin. apply matches_query_iff; [done|].
    unfold contains_in_column in Hin.
    destruct (Col.get c d) as [v|] eqn:Hv; [|done].
    exists c, v. split_and!; [done..|]. by apply contains_occurs_folded.
Qed.

(** ** The invariants hold in every reachable world *)

Lemma integer_affinity_idem numeric_text v :
  Sql.keeps_text numeric_text →
  Sql.integer_affinity numeric_text (Sql.integer_affinity numeric_text v)
  = Sql.integer_affinity numeric_text v.
Proof.
  intros Hk. destruct v as [|z|x|s]; simpl; try done.
  destruct (numeric_text s) as [|z|x|t] eqn:Hs; simpl; try done.
  apply Hk in Hs as Heq. by subst.
Qed.

Lemma consistent_init_db numeric_text : consistent numeric_text (init_db empty_world).
Proof.
  split; simpl; [constructor | constructor | constructor | by left].
Qed.

Lemma consistent_set_session numeric_text s w :
  consistent numeric_text w →
  s = ∅ ∨ s !! "logged_in" = Some (PyBool true) →
  consistent numeric_text (set_session s w).
Proof. intros [] Hs. by split. Qed.

Lemma consistent_set_qr_folder numeric_text q w :
  consistent numeric_text w → consistent numeric_text (set_qr_folder q w).
Proof. intros []. by split. Qed.

Lemma consistent_set_upload_folder numeric_text u w :
  consistent numeric_text w → consistent numeric_text (set_upload_folder u w).
Proof. intros []. by split. Qed.

Lemma consistent_login numeric_text request w :
  consistent numeric_text w →
  consistent numeric_text (login request w).2.
Proof.
  intros Hw. unfold login.
  destruct (Request.method request); [done|].
  destruct (select_user _ _ (users w)); [|done]. simpl.
  apply consistent_set_session; [done|]. right. by simplify_map_eq.
Qed.

Lemma consistent_logout numeric_text request w :
  consistent numeric_text w →
  consistent numeric_text (logout request w).2.
Proof.
  intros Hw. unfold logout, login_required.
  destruct (negb _); [done|]. simpl.
  apply consistent_set_session; auto.
Qed.

Lemma consistent_new_donation numeric_text now token_bytes request w :
  Sql.keeps_text numeric_text →
  consistent numeric_text w →
  consistent numeric_text
    (new_donation numeric_text now token_bytes request w).2.
Proof.
  intros Hk Hw.
  destruct (decide (logged_in w ∧ Request.method request = POST))
    as [[Hlog Hpost]|Hno]; cycle 1.
  { by rewrite new_donation_not_post. }
  rewrite new_donation_post by done.
  destruct (Request.form request !! "donor_name") as [name|]; [|done].
  simpl.
  destruct (existsb _ (donations w)) eqn:Htaken; [done|]. simpl.
  apply consistent_set_qr_folder. destruct Hw as [Hids Htok Hq Hs].
  split; simpl; [| | |done].
  - rewrite fmap_app. apply NoDup_app. split_and!; [done| |].
    + intros i Hi [->|[]%elem_of_nil]%elem_of_cons.
      apply (next_rowid_fresh (donations_seq w)) in Hi.
      unfold new_row in Hi. simpl in Hi. lia.
    + apply NoDup_singleton.
  - rewrite omap_app. simpl. apply NoDup_app. split_and!; [done| |].
    + intros t Ht [->|[]%elem_of_nil]%elem_of_cons.
      apply list_elem_of_omap in Ht as (d & Hin & Hd).
      assert (existsb
                (λ d, bool_decide
                        (Donation.token d
                         = Some (generate_token token_bytes)))
                (donations w) = true) as Hex
        by (apply token_taken_iff; eauto).
      congruence.
    + apply NoDup_singleton.
  - apply Forall_app. split; [done|]. apply Forall_singleton. simpl.
    by apply integer_affinity_idem.
Qed.

Lemma consistent_update_donation numeric_text i request w :
  Sql.keeps_text numeric_text →
  consistent numeric_text w →
  consistent numeric_text (update_donation numeric_text i request w).2.
Proof.
  intros Hk Hw.
  destruct (decide (logged_in w ∧ Request.method request = POST))
    as [[Hlog Hpost]|Hno]; cycle 1.
  { by rewrite update_donation_not_post. }
  destruct (select_by_id i (donations w)) as [d|] eqn:Hsel; cycle 1.
  { unfold update_donation. rewrite login_required_logged_in by done.
    by rewrite Hsel. }
  assert (∀ name phone email type qty dest st photo w1,
    donations w1 = donations w → session w1 = session w →
    consistent numeric_text
      (set_donations
         ((λ r, if bool_decide (Donation.id r = i)
                then set_columns numeric_text name phone email type qty dest
                       st photo r
                else r) <$> donations w)
         (donations_seq w) w1)) as Hset.
  { intros name phone email type qty dest st photo w1 Hd Hs.
    destruct Hw as [Hids Htok Hq Hses]. split; simpl.
    - replace (Donation.id <$> _) with (Donation.id <$> donations w); [done|].
      rewrite <- list_fmap_compose. apply list_fmap_ext.
      intros k r _. simpl. by rewrite set_columns_id.
    - replace (omap Donation.token _)
        with (omap Donation.token (donations w)); [done|].
      clear. induction (donations w) as [|r l IH]; [done|].
      rewrite fmap_cons. unfold omap in *. simpl. rewrite <- IH.
      by destruct (bool_decide (Donation.id r = i)).
    - apply Forall_fmap. eapply Forall_impl; [exact Hq|].
      intros r Hr. simpl.
      destruct (bool_decide (Donation.id r = i)); [|done]. simpl.
      by apply integer_affinity_idem.
    - by rewrite Hs. }
  rewrite (update_donation_post _ _ _ _ d) by done.
  destruct (bool_decide (Donation.status d = Some "Registrada"));
    [destruct (Request.form request !! "donor_name")|]; simpl;
    destruct (photo_supplied request); simpl;
    try (by apply Hset); try done.
  by apply consistent_set_upload_folder.
Qed.

Lemma consistent_delete_donation numeric_text i request w :
  consistent numeric_text w →
  consistent numeric_text (delete_donation i request w).2.
Proof.
  intros Hw. unfold delete_donation, login_required, role_required.
  destruct (negb _); [done|]. destruct (bool_decide _); [done|].
  destruct (select_by_id i (donations w)); [|done].
  destruct (bool_decide _); [done|]. simpl.
  destruct Hw as [Hids Htok Hq Hs]. split; simpl; [| | |done].
  - clear -Hids. induction (donations w) as [|r l IH]; [done|].
    simpl in Hids. apply NoDup_cons in Hids as [Hr Hl].
    rewrite filter_cons. destruct (decide (Donation.id r ≠ i)); [|auto].
    simpl. apply NoDup_cons. split; [|auto].
    intros (x & Hx & Hin)%list_elem_of_fmap.
    apply list_elem_of_filter in Hin as [_ Hin].
    apply Hr. apply list_elem_of_fmap. eauto.
  - clear -Htok. induction (donations w) as [|r l IH]; [done|].
    rewrite filter_cons. simpl in Htok.
    destruct (decide (Donation.id r ≠ i)).
    + simpl. destruct (Donation.token r) as [t|]; [|auto].
      apply NoDup_cons in Htok as [Hr Hl]. apply NoDup_cons.
      split; [|auto].
      intros (x & Hin & Hx)%list_elem_of_omap.
      apply list_elem_of_filter in Hin as [_ Hin].
      apply Hr. apply list_elem_of_omap. eauto.
    + destruct (Donation.token r); [|auto].
      apply NoDup_cons in Htok as [_ Hl]. auto.
  - rewrite Forall_forall in Hq |- *.
    intros r [_ Hr]%list_elem_of_filter. by apply Hq.
Qed.

Lemma consistent_donation_qr numeric_text token request w :
  consistent numeric_text w →
  consistent numeric_text (donation_qr token request w).2.
Proof.
  intros Hw. unfold donation_qr, login_required.
  destruct (negb _); [done|].
  destruct (select_by_token token (donations w)); [|done].
  destruct (bool_decide _); [done|]. simpl.
  by apply consistent_set_qr_folder.
Qed.

Lemma consistent_donation_print numeric_text token request w :
  consistent numeric_text w →
  consistent numeric_text (donation_print token request w).2.
Proof.
  intros Hw. unfold donation_print, login_required.
  destruct (negb _); [done|].
  destruct (select_by_token token (donations w)); [|done].
  destruct (bool_decide _); [done|]. simpl.
  by apply consistent_set_qr_folder.
Qed.

Lemma consistent_init_db_again numeric_text w :
  consistent numeric_text w → consistent numeric_text (init_db w).
Proof.
  intros Hw. unfold init_db. destruct (List.find _ (users w)); [done|].
  destruct Hw. by split.
Qed.

Lemma consistent_serve numeric_text c request w :
  Sql.keeps_text numeric_text →
  consistent numeric_text w →
  consistent numeric_text (serve numeric_text c request w).2.
Proof.
  intros Hk Hw.
  destruct c as [| | |now token_bytes|token|token|token|i|i|name]; simpl.
  - by apply consistent_login.
  - by apply consistent_logout.
  - unfold admin_list, login_required. by destruct (negb _).
  - by apply consistent_new_donation.
  - by apply consistent_donation_qr.
  - by apply consistent_donation_print.
  - unfold track_donation. by destruct (select_by_token _ _).
  - by apply consistent_update_donation.
  - by apply consistent_delete_donation.
  - unfold uploaded_file. by destruct (upload_folder w !! name).
Qed.

(** Every world the application reaches is consistent. *)
Lemma reachable_consistent numeric_text w :
  Sql.keeps_text numeric_text →
  reachable numeric_text w → consistent numeric_text w.
Proof.
  intros Hk Hr. induction Hr as [|w Hr IH|w c request Hr IH].
  - split; simpl; [constructor | constructor | constructor | by left].
  - by apply consistent_init_db_again.
  - by apply consistent_serve.
Qed.

(** ** The sample worlds *)

Lemma decimal_text_keeps_text : Sql.keeps_text decimal_text.
Proof.
  intros s t. unfold decimal_text. destruct s as [|c s]; [congruence|].
  destruct (decimal_digits (String c s) 0); congruence.
Qed.

Lemma reachable_admin_world : reachable decimal_text admin_world.
Proof.
  apply (reachable_serve _ _ call_login), reachable_init_db, reachable_empty.
Qed.

Lemma reachable_ana_world : reachable decimal_text ana_world.
Proof.
  apply (reachable_serve _ _ (call_new_donation _ _)), reachable_admin_world.
Qed.

Lemma consistent_ana_world : consistent decimal_text ana_world.
Proof.
  apply reachable_consistent;
    [apply decimal_text_keeps_text | apply reachable_ana_world].
Qed.

Lemma donations_ana_world : donations ana_world = [ana].
Proof. by vm_compute. Qed.

Lemma logged_in_ana_world : logged_in ana_world.
Proof. by vm_compute. Qed.

Lemma consistent_delivered_world : consistent decimal_text delivered_world.
Proof.
  apply reachable_consistent; [apply decimal_text_keeps_text|].
  apply (reachable_serve _ _ (call_update_donation 1)), reachable_ana_world.
Qed.

(** ** The theorems at work *)

(** C1 on the donation of Ana once it is delivered: a form that tries to
    rename the donor changes none of the six fields. *)
Lemma update_descriptive_fields_witness :
  consistent decimal_text delivered_world
  ∧ (∃ d, select_by_id 1 (donations delivered_world) = Some d
          ∧ Donation.status d = Some "Entregada"
          ∧ descriptive
              <$> select_by_id 1
                    (donations
                       (update_donation decimal_text 1
                          (post "/admin/update/1"
                             [("donor_name", "Beatriz"); ("quantity", "7");
                              ("status", "Entregada")])
                          delivered_world).2)
            = Some (descriptive d)).
Proof.
  split; [apply consistent_delivered_world|].
  assert (select_by_id 1 (donations delivered_world)
          = Some (set_columns decimal_text "Ana" None None None
                    (Sql.Integer 0) None (Some "Entregada") None ana))
    as Hsel by (by vm_compute).
  eexists. split_and!; [exact Hsel | done |].
  refine (proj1 (update_descriptive_fields decimal_text 1 _ delivered_world _
                   consistent_delivered_world Hsel) _).
  by vm_compute.
Defined.

(** C2 fails as worded: a session that is not logged in (its role is not
    "admin") asks to delete a donation that is Registrada; the answer is
    the redirect to the login page, neither 400 nor 403. *)
Lemma delete_anonymous_redirected :
  select_by_id 1 (donations anonymous_world) = Some ana
  ∧ session anonymous_world !! "role" ≠ Some (PyStr "admin")
  ∧ delete_donation 1 (post "/admin/delete/1" []) anonymous_world
    = (redirect (url_login (Some "/admin/delete/1")), anonymous_world)
  ∧ ∀ body code,
      (delete_donation 1 (post "/admin/delete/1" []) anonymous_world).1
      ≠ text_status body code.
Proof. by vm_compute. Qed.

(** C2 on the donation of Ana, asked by the administrator: it is gone. *)
Lemma delete_donation_policy_witness :
  select_by_id 1 (donations ana_world) = Some ana
  ∧ select_by_id 1
      (donations
         (delete_donation 1 (post "/admin/delete/1" []) ana_world).2)
    = None.
Proof.
  assert (select_by_id 1 (donations ana_world) = Some ana) as Hsel
    by (by vm_compute).
  split; [exact Hsel|].
  apply (proj1 (delete_donation_policy 1 (post "/admin/delete/1" [])
                  ana_world ana Hsel)).
  by vm_compute.
Defined.

(** C4 fails as worded: the form carries a donor name, the random source
    gives the bytes it gave for the donation of Ana, and the creation
    fails on the uniqueness of the token. *)
Lemma new_donation_collision :
  Request.form (post "/new" [("donor_name", "Bea")]) !! "donor_name"
  = Some "Bea"
  ∧ new_donation decimal_text "2025-03-01 10:05:00" all_zero
      (post "/new" [("donor_name", "Bea")]) ana_world
    = (raised IntegrityError_unique_token, ana_world).
Proof. by vm_compute. Qed.

(** C4 on a second donation, with other random bytes. *)
Lemma new_donation_creates_witness :
  logged_in ana_world
  ∧ (∀ d, d ∈ donations ana_world →
          Donation.token d ≠ Some (generate_token all_one))
  ∧ ∃ d,
      donations
        (new_donation decimal_text "2025-03-01 10:05:00" all_one
           (post "/new" [("donor_name", "Bea")]) ana_world).2
      = [ana; d]
      ∧ Donation.status d = Some "Registrada"
      ∧ Donation.quantity d = Sql.Integer 0
      ∧ Donation.photo_path d = None.
Proof.
  assert (∀ d, d ∈ donations ana_world →
               Donation.token d ≠ Some (generate_token all_one)) as Hfresh.
  { rewrite donations_ana_world.
    intros d [->|[]%elem_of_nil]%elem_of_cons. by vm_compute. }
  split_and!; [apply logged_in_ana_world | exact Hfresh |].
  destruct (new_donation_creates decimal_text "2025-03-01 10:05:00" all_one
              (post "/new" [("donor_name", "Bea")]) ana_world "Bea"
              logged_in_ana_world eq_refl eq_refl Hfresh)
    as (d & _ & Hd & _ & _ & _ & Hst & Hph & _ & _ & Hq & _).
  exists d. rewrite Hd, donations_ana_world.
  split_and!; [done | exact Hst | apply Hq; by left | exact Hph].
Defined.

(** C5 fails as worded: the search for "ana" shows the donation of Ana,
    although "ana" is a substring of none of its six searched columns. *)
Lemma admin_list_folds_case :
  (admin_list (get "/" [("q", "ana")]) ana_world).1
  = render_template (admin_list_html [ana] "ana" EmptyString)
  ∧ forallb (λ c, negb (contains_in_column "ana" ana c)) searched_columns
    = true.
Proof. by vm_compute. Qed.

(** C5 on the search for "an": no wildcard, one row. *)
Lemma admin_list_rows_witness :
  logged_in ana_world
  ∧ ∃ rows,
      admin_list (get "/" [("q", " an ")]) ana_world
      = (render_template (admin_list_html rows "an" EmptyString), ana_world)
      ∧ (∀ d, d ∈ rows ↔
              d ∈ donations ana_world
              ∧ ("an" = EmptyString ∨ matches_query "an" d = true)
              ∧ (EmptyString = EmptyString ∨ Donation.status d = Some EmptyString)).
Proof.
  split; [apply logged_in_ana_world|].
  destruct (admin_list_rows (get "/" [("q", " an ")]) ana_world
              logged_in_ana_world) as (rows & Hresp & _ & _ & Hrows & _).
  exists rows. split; [exact Hresp | exact Hrows].
Defined.

(** C6 on the token of Ana. *)
Lemma track_donation_reads_witness :
  NoDup (omap Donation.token (donations anonymous_world))
  ∧ track_donation "AAAAAAAAAAAAAAAA" (get "/track/AAAAAAAAAAAAAAAA" [])
      anonymous_world
    = (render_template
         (track_html ana (url_track_donation "AAAAAAAAAAAAAAAA")
            (url_whatsapp (url_track_donation "AAAAAAAAAAAAAAAA"))),
       anonymous_world).
Proof.
  assert (NoDup (omap Donation.token (donations anonymous_world))) as Hnd.
  { change (NoDup ["AAAAAAAAAAAAAAAA"]). apply NoDup_singleton. }
  split; [exact Hnd|].
  destruct (track_donation_reads "AAAAAAAAAAAAAAAA"
              (get "/track/AAAAAAAAAAAAAAAA" []) anonymous_world Hnd)
    as (Hw & _ & Hd).
  apply injective_projections; [|exact Hw].
  apply Hd; [|done].
  replace (donations anonymous_world) with [ana] by (by vm_compute).
  by left.
Defined.

(** C7 fails as worded: a photo comes with an update of a Registrada
    donation whose form has no donor name; the UPDATE is refused and the
    stored photo reference is still NULL, while the file is in the upload
    folder. *)
Lemma update_photo_refused :
  photo_supplied (post_photo "/admin/update/1" [("status", "Entregada")] foto)
  = Some foto
  ∧ update_donation decimal_text 1
      (post_photo "/admin/update/1" [("status", "Entregada")] foto) ana_world
    = (raised IntegrityError_not_null_donor_name,
       set_upload_folder {[ "donation_1.jpg" := stream foto ]} ana_world)
  ∧ Donation.photo_path
      <$> select_by_id 1
            (donations
               (update_donation decimal_text 1
                  (post_photo "/admin/update/1" [("status", "Entregada")]
                     foto) ana_world).2)
    = Some None.
Proof. by vm_compute. Qed.

(** C7 on the same photo with the donor name in the form. *)
Lemma update_photo_reference_witness :
  select_by_id 1 (donations ana_world) = Some ana
  ∧ Donation.photo_path
      <$> select_by_id 1
            (donations
               (update_donation decimal_text 1
                  (post_photo "/admin/update/1"
                     [("donor_name", "Ana"); ("status", "Entregada")] foto)
                  ana_world).2)
    = Some (Some "uploads/donation_1.jpg").
Proof.
  assert (select_by_id 1 (donations ana_world) = Some ana) as Hsel
    by (by vm_compute).
  split; [exact Hsel|].
  refine (proj1 (proj2 (update_photo_reference decimal_text 1
                          (post_photo "/admin/update/1"
                             [("donor_name", "Ana"); ("status", "Entregada")]
                             foto)
                          ana_world ana Hsel) foto _ logged_in_ana_world
                   eq_refl _)).
  - by vm_compute.
  - intros _. by exists "Ana".
Defined.

(** C8 fails as worded: the token has sixteen characters of six bits, the
    twelve bytes of the random source and no more; the random source gives
    the same twelve bytes twice, and the second creation is not given
    another token: it fails on the uniqueness constraint and leaves one row
    in the table. *)
Lemma token_not_regenerated :
  let w1 :=
    (new_donation decimal_text "2025-03-01 10:00:00" all_one
       (post "/new" [("donor_name", "Ana")]) admin_world).2 in
  length (all_one 12) = 12%nat
  ∧ (String.length (generate_token all_one) * 6 = 12 * 8)%nat
  ∧ length (donations w1) = 1%nat
  ∧ new_donation decimal_text "2025-03-01 10:05:00" all_one
      (post "/new" [("donor_name", "Luis")]) w1
    = (raised IntegrityError_unique_token, w1).
Proof. by vm_compute. Qed.

(** C8 on the zero bytes: the token and the collision with Ana's. *)
Lemma generate_token_drawn_once_witness :
  length (all_zero 12) = 12%nat
  ∧ logged_in ana_world
  ∧ String.length (generate_token all_zero) = 16%nat
  ∧ new_donation decimal_text "2025-03-01 10:05:00" all_zero
      (post "/new" [("donor_name", "Bea")]) ana_world
    = (raised IntegrityError_unique_token, ana_world).
Proof.
  destruct (generate_token_drawn_once decimal_text "2025-03-01 10:05:00"
              all_zero (post "/new" [("donor_name", "Bea")]) ana_world "Bea"
              eq_refl logged_in_ana_world eq_refl eq_refl)
    as (Hlen & _ & _ & Htaken & _).
  split_and!; [done | apply logged_in_ana_world | exact Hlen |].
  apply Htaken. exists ana. rewrite donations_ana_world.
  split; [by left | done].
Defined.

(** C9 fails as worded: the submitted username has a space in front, no
    stored username equals it, and the login succeeds. *)
Lemma login_strips_spaces :
  (∀ u, u ∈ users (init_db empty_world) → User.username u ≠ Some " admin")
  ∧ (login
       (post "/login" [("username", " admin"); ("password", "agape2025")])
       (init_db empty_world)).1
    = redirect url_admin_list
  ∧ session
      (login
         (post "/login" [("username", " admin"); ("password", "agape2025")])
         (init_db empty_world)).2 !! "logged_in"
    = Some (PyBool true).
Proof.
  split_and!; [|by vm_compute..].
  intros u [->|[]%elem_of_nil]%elem_of_cons. by vm_compute.
Qed.

(** C9 on a wrong password: nothing changes. *)
Lemma login_establishes_session_witness :
  Request.method
    (post "/login" [("username", "admin"); ("password", "agape")]) = POST
  ∧ (login (post "/login" [("username", "admin"); ("password", "agape")])
       (init_db empty_world)).2
    = init_db empty_world.
Proof.
  split; [done|].
  refine (proj1 (proj2 (proj2 (login_establishes_session
                                 (post "/login"
                                    [("username", "admin");
                                     ("password", "agape")])
                                 (init_db empty_world) eq_refl)) _)).
  intros (u & [->|[]%elem_of_nil]%elem_of_cons & _ & Hp). by vm_compute in Hp.
Defined.

(** C10 fails as worded: the form of an update of a Registrada donation
    has neither status nor donor name; the UPDATE is refused and the
    stored status is still "Registrada". *)
Lemma update_without_status_refused :
  Request.form (post "/admin/update/1" []) !! "status" = None
  ∧ update_donation decimal_text 1 (post "/admin/update/1" []) ana_world
    = (raised IntegrityError_not_null_donor_name, ana_world)
  ∧ Donation.status
      <$> select_by_id 1
            (donations
               (update_donation decimal_text 1 (post "/admin/update/1" [])
                  ana_world).2)
    = Some (Some "Registrada").
Proof. by vm_compute. Qed.

(** C10 on a form with the donor name and without the status. *)
Lemma update_stores_submitted_status_witness :
  logged_in ana_world
  ∧ select_by_id 1 (donations ana_world) = Some ana
  ∧ update_accepted (post "/admin/update/1" [("donor_name", "Ana")]) ana
  ∧ Donation.status
      <$> select_by_id 1
            (donations
               (update_donation decimal_text 1
                  (post "/admin/update/1" [("donor_name", "Ana")])
                  ana_world).2)
    = Some None.
Proof.
  assert (select_by_id 1 (donations ana_world) = Some ana) as Hsel
    by (by vm_compute).
  assert (update_accepted (post "/admin/update/1" [("donor_name", "Ana")])
            ana) as Hacc by (intros _; by exists "Ana").
  split_and!; [apply logged_in_ana_world | exact Hsel | exact Hacc |].
  refine (proj2 (update_stores_submitted_status decimal_text 1
                   (post "/admin/update/1" [("donor_name", "Ana")])
                   ana_world ana logged_in_ana_world eq_refl Hsel Hacc) _).
  by vm_compute.
Defined.

(** ** What the views leave alone *)

Lemma serve_anonymous numeric_text c request w :
  protected c = true → ¬ logged_in w →
  serve numeric_text c request w
  = (redirect (url_login (Some (Request.path request))), w).
Proof.
  intros Hc Hw. destruct c; try done; simpl;
    by apply login_required_anonymous.
Qed.

Lemma update_donation_frame numeric_text i request w :
  let w' := (update_donation numeric_text i request w).2 in
  users w' = users w ∧ users_seq w' = users_seq w
  ∧ session w' = session w ∧ qr_folder w' = qr_folder w
  ∧ donations_seq w' = donations_seq w
  ∧ (upload_folder w' = upload_folder w
     ∨ ∃ photo, photo_supplied request = Some photo
         ∧ upload_folder w'
           = <[upload_name i photo := stream photo]> (upload_folder w)).
Proof.
  simpl.
  destruct (decide (logged_in w ∧ Request.method request = POST))
    as [[Hlog Hpost]|Hno]; cycle 1.
  { rewrite update_donation_not_post by done. split_and!; auto. }
  destruct (select_by_id i (donations w)) as [d|] eqn:Hsel; cycle 1.
  { unfold update_donation. rewrite login_required_logged_in by done.
    rewrite Hsel. split_and!; auto. }
  rewrite (update_donation_post _ _ _ _ d) by done.
  destruct (bool_decide (Donation.status d = Some "Registrada"));
    [destruct (Request.form request !! "donor_name")|];
    destruct (photo_supplied request) as [photo|]; simpl;
    split_and!; eauto.
Qed.

Lemma new_donation_frame numeric_text now token_bytes request w :
  let w' := (new_donation numeric_text now token_bytes request w).2 in
  users w' = users w ∧ users_seq w' = users_seq w
  ∧ session w' = session w ∧ upload_folder w' = upload_folder w
  ∧ (qr_folder w' = qr_folder w
     ∨ qr_folder w'
       = <[qr_name (generate_token token_bytes)
           := url_track_donation (generate_token token_bytes)]>
           (qr_folder w)).
Proof.
  simpl.
  destruct (decide (logged_in w ∧ Request.method request = POST))
    as [[Hlog Hpost]|Hno]; cycle 1.
  { rewrite new_donation_not_post by done. split_and!; auto. }
  rewrite new_donation_post by done.
  destruct (Request.form request !! "donor_name"); simpl;
    [|split_and!; auto].
  destruct (existsb _ (donations w)); simpl; split_and!; auto.
Qed.

Lemma qr_page_frame token w :
  let w' :=
    if bool_decide (is_Some (qr_folder w !! qr_name token)) then w
    else (generate_qr_for_token token w).2 in
  donations w' = donations w ∧ donations_seq w' = donations_seq w
  ∧ users w' = users w ∧ users_seq w' = users_seq w
  ∧ session w' = session w ∧ upload_folder w' = upload_folder w
  ∧ (qr_folder w' = qr_folder w
     ∨ qr_folder w !! qr_name token = None
       ∧ qr_folder w'
         = <[qr_name token := url_track_donation token]> (qr_folder w)).
Proof.
  simpl. destruct (decide (is_Some (qr_folder w !! qr_name token)))
    as [His|Hnot].
  - rewrite bool_decide_true by done. split_and!; auto.
  - rewrite bool_decide_false by done. simpl. split_and!; auto.
    right. split; [|done]. by apply eq_None_not_Some.
Qed.

Lemma donation_qr_cases token request w :
  donation_qr token request w
  = if bool_decide (logged_in w) then
      match select_by_token token (donations w) with
      | None => (abort 404, w)
      | Some donation =>
          (render_template
             (donation_qr_html donation (qr_name token)
                (url_track_donation token)),
           if bool_decide (is_Some (qr_folder w !! qr_name token)) then w
           else (generate_qr_for_token token w).2)
      end
    else (redirect (url_login (Some (Request.path request))), w).
Proof.
  destruct (decide (logged_in w)) as [Hlog|Hlog].
  - rewrite bool_decide_true by done. unfold donation_qr.
    rewrite login_required_logged_in by done.
    by destruct (select_by_token token (donations w)).
  - rewrite bool_decide_false by done. unfold donation_qr.
    by rewrite login_required_anonymous.
Qed.

Lemma donation_print_cases token request w :
  donation_print token request w
  = if bool_decide (logged_in w) then
      match select_by_token token (donations w) with
      | None => (abort 404, w)
      | Some donation =>
          (render_template
             (donation_print_html donation (qr_name token)
                (url_track_donation token)),
           if bool_decide (is_Some (qr_folder w !! qr_name token)) then w
           else (generate_qr_for_token token w).2)
      end
    else (redirect (url_login (Some (Request.path request))), w).
Proof.
  destruct (decide (logged_in w)) as [Hlog|Hlog].
  - rewrite bool_decide_true by done. unfold donation_print.
    rewrite login_required_logged_in by done.
    by destruct (select_by_token token (donations w)).
  - rewrite bool_decide_false by done. unfold donation_print.
    by rewrite login_required_anonymous.
Qed.

Lemma delete_donation_cases i request w :
  delete_donation i request w
  = if bool_decide (logged_in w) then
      if bool_decide (session w !! "role" = Some (PyStr "admin")) then
        match select_by_id i (donations w) with
        | None => (abort 404, w)
        | Some d =>
            if bool_decide (Donation.status d = Some "Registrada")
            then (redirect url_admin_list, delete_donations i w)
            else (text_status msg_only_registrada 400, w)
        end
      else (text_status msg_no_permission 403, w)
    else (redirect (url_login (Some (Request.path request))), w).
Proof.
  unfold delete_donation.
  destruct (decide (logged_in w)) as [Hlog|Hlog]; cycle 1.
  { rewrite bool_decide_false by done. by rewrite login_required_anonymous. }
  rewrite bool_decide_true by done.
  rewrite login_required_logged_in by done. unfold role_required.
  destruct (decide (session w !! "role" = Some (PyStr "admin")))
    as [Hrole|Hrole].
  - rewrite (bool_decide_true (_ = _)) by done.
    rewrite bool_decide_false by (rewrite Hrole; simpl; auto).
    destruct (select_by_id i (donations w)) as [d|]; [|done].
    destruct (decide (Donation.status d = Some "Registrada")).
    + rewrite bool_decide_false by auto. by rewrite bool_decide_true.
    + rewrite bool_decide_true by done. by rewrite bool_decide_false.
  - rewrite (bool_decide_false (_ = _)) by done.
    rewrite bool_decide_true; [done|].
    intros Heq. apply Hrole.
    destruct (session w !! "role") as [v|]; simpl in Heq; congruence.
Qed.

(** X1. No view changes the table of users, and no view other than [login]
    and [logout] changes the session. *)
Theorem views_keep_users_and_session numeric_text c request w :
  let w' := (serve numeric_text c request w).2 in
  users w' = users w ∧ users_seq w' = users_seq w
  ∧ (c ≠ call_login → c ≠ call_logout → session w' = session w).
Proof.
  destruct c as [| | |now token_bytes|token|token|token|i|i|name]; simpl.
  - unfold login. destruct (Request.method request); [done|].
    by destruct (select_user _ _ (users w)).
  - unfold logout, login_required. by destruct (negb _).
  - unfold admin_list, login_required. by destruct (negb _).
  - destruct (new_donation_frame numeric_text now token_bytes request w)
      as (? & ? & ? & _). done.
  - rewrite donation_qr_cases.
    destruct (qr_page_frame token w) as (_ & _ & ? & ? & ? & _).
    destruct (bool_decide (logged_in w)); [|done].
    by destruct (select_by_token token (donations w)).
  - rewrite donation_print_cases.
    destruct (qr_page_frame token w) as (_ & _ & ? & ? & ? & _).
    destruct (bool_decide (logged_in w)); [|done].
    by destruct (select_by_token token (donations w)).
  - unfold track_donation. by destruct (select_by_token _ _).
  - destruct (update_donation_frame numeric_text i request w)
      as (? & ? & ? & _). done.
  - rewrite delete_donation_cases.
    destruct (bool_decide (logged_in w)); [|done].
    destruct (bool_decide (_ = _)); [|done].
    destruct (select_by_id i (donations w)) as [d|]; [|done].
    by destruct (bool_decide _).
  - unfold uploaded_file. by destruct (upload_folder w !! name).
Qed.

(** X2. No view removes a file: every name of the QR folder and of the
    upload folder is still there after any request. *)
Theorem views_keep_files numeric_text c request w name :
  let w' := (serve numeric_text c request w).2 in
  (is_Some (qr_folder w !! name) → is_Some (qr_folder w' !! name))
  ∧ (is_Some (upload_folder w !! name) → is_Some (upload_folder w' !! name)).
Proof.
  assert (∀ (A : Type) (m : gmap string A) k (v : A),
            is_Some (m !! name) → is_Some (<[k := v]> m !! name)) as Hins.
  { intros A m k v Hm. destruct (decide (k = name)) as [->|Hne].
    - rewrite lookup_insert_eq. eauto.
    - by rewrite lookup_insert_ne. }
  destruct c as [| | |now token_bytes|token|token|token|i|i|file]; simpl.
  - unfold login. destruct (Request.method request); [done|].
    by destruct (select_user _ _ (users w)).
  - unfold logout, login_required. by destruct (negb _).
  - unfold admin_list, login_required. by destruct (negb _).
  - destruct (new_donation_frame numeric_text now token_bytes request w)
      as (_ & _ & _ & -> & [-> | ->]); auto.
  - rewrite donation_qr_cases.
    destruct (qr_page_frame token w) as (_ & _ & _ & _ & _ & Hu & Hq).
    destruct (bool_decide (logged_in w)); [|done].
    destruct (select_by_token token (donations w)); [|done]. cbn [snd].
    rewrite Hu. destruct Hq as [-> | [_ ->]]; auto.
  - rewrite donation_print_cases.
    destruct (qr_page_frame token w) as (_ & _ & _ & _ & _ & Hu & Hq).
    destruct (bool_decide (logged_in w)); [|done].
    destruct (select_by_token token (donations w)); [|done]. cbn [snd].
    rewrite Hu. destruct Hq as [-> | [_ ->]]; auto.
  - unfold track_donation. by destruct (select_by_token _ _).
  - destruct (update_donation_frame numeric_text i request w)
      as (_ & _ & _ & -> & _ & [-> | (photo & _ & ->)]); auto.
  - rewrite delete_donation_cases.
    destruct (bool_decide (logged_in w)); [|done].
    destruct (bool_decide (_ = _)); [|done].
    destruct (select_by_id i (donations w)) as [d|]; [|done].
    by destruct (bool_decide _).
  - unfold uploaded_file. by destruct (upload_folder w !! file).
Qed.

(** X3. A session that is not logged in gets from every view behind
    [login_required] the redirect to the login page with the path it asked
    for, and the world stays as it was; the public tracking page and the
    uploaded files answer the same whatever the session holds. *)
Theorem anonymous_is_redirected numeric_text c request w :
  ¬ logged_in w →
  (protected c = true →
   serve numeric_text c request w
   = (redirect (url_login (Some (Request.path request))), w))
  ∧ (∀ token s,
       (track_donation token request (set_session s w)).1
       = (track_donation token request w).1)
  ∧ (∀ name s,
       (uploaded_file name request (set_session s w)).1
       = (uploaded_file name request w).1).
Proof.
  intros Hw. split_and!.
  - intros Hc. by apply serve_anonymous.
  - intros token s. unfold track_donation. simpl.
    by destruct (select_by_token token (donations w)).
  - intros name s. unfold uploaded_file. simpl.
    by destruct (upload_folder w !! name).
Qed.

Lemma anonymous_is_redirected_witness :
  ¬ logged_in anonymous_world
  ∧ new_donation decimal_text "2025-03-02 09:00:00" all_one
      (post "/new" [("donor_name", "Luis")]) anonymous_world
    = (redirect (url_login (Some "/new")), anonymous_world).
Proof.
  assert (¬ logged_in anonymous_world) as Hw by (by vm_compute).
  split; [exact Hw|].
  exact (proj1 (anonymous_is_redirected decimal_text
                  (call_new_donation "2025-03-02 09:00:00" all_one)
                  (post "/new" [("donor_name", "Luis")]) anonymous_world Hw)
           eq_refl).
Defined.

(** ** Start-up and keys *)

Lemma find_app_None {A} (p : A → bool) l x :
  List.find p l = None → List.find p (l ++ [x]) = if p x then Some x else None.
Proof.
  induction l as [|y l IH]; simpl; [done|].
  destruct (p y); [done | apply IH].
Qed.

(** X4. [init_db] can run at every start: a second run changes nothing.
    After it a user named "admin" exists; the account it makes, when there
    was none, logs in with the password "agape2025" and the role "admin",
    and an account "admin" that was there is kept as it is.  The donations,
    the session and the files are not touched. *)
Theorem init_db_idempotent w :
  init_db (init_db w) = init_db w
  ∧ (∃ u, u ∈ users (init_db w) ∧ User.username u = Some "admin")
  ∧ ((∀ u, u ∈ users w → User.username u ≠ Some "admin") →
     ∃ u, select_user "admin" "agape2025" (users (init_db w)) = Some u
          ∧ User.role u = Some "admin")
  ∧ ((∃ u, u ∈ users w ∧ User.username u = Some "admin") → init_db w = w)
  ∧ donations (init_db w) = donations w
  ∧ donations_seq (init_db w) = donations_seq w
  ∧ session (init_db w) = session w
  ∧ qr_folder (init_db w) = qr_folder w
  ∧ upload_folder (init_db w) = upload_folder w.
Proof.
  unfold init_db.
  destruct (List.find _ (users w)) as [u|] eqn:Hfind.
  - rewrite Hfind. split_and!; try done.
    + apply find_some in Hfind as [Hin Hu].
      exists u. split; [by apply list_elem_of_In|].
      by apply bool_decide_eq_true in Hu.
    + intros Hno. apply find_some in Hfind as [Hin Hu].
      apply bool_decide_eq_true in Hu. apply list_elem_of_In in Hin.
      by destruct (Hno u Hin).
  - split_and!; try done.
    + simpl. by rewrite (find_app_None _ _ _ Hfind).
    + eexists. split; [simpl; apply elem_of_app; right; by left|done].
    + intros Hno.
      exists {| User.id := next_rowid (users_seq w) (User.id <$> users w);
                User.username := Some "admin";
                User.password := Some "agape2025";
                User.role := Some "admin" |}.
      split; [|reflexivity]. simpl.
      unfold select_user. rewrite find_app_None; [done|].
      clear Hfind. induction (users w) as [|x l IH]; [done|]. simpl.
      rewrite bool_decide_false by (apply Hno; left). simpl.
      apply IH. intros u Hu. apply Hno. by right.
    + intros (u & Hin & Hu). apply list_elem_of_In in Hin.
      pose proof (find_none _ _ Hfind u Hin) as Hf. simpl in Hf.
      by rewrite bool_decide_true in Hf.
Qed.

Lemma select_by_id_unique ds d :
  NoDup (Donation.id <$> ds) → d ∈ ds →
  select_by_id (Donation.id d) ds = Some d.
Proof.
  unfold select_by_id. intros Hnd Hin.
  induction ds as [|r ds IH]; [by apply elem_of_nil in Hin|].
  simpl in *. apply NoDup_cons in Hnd as [Hnot Hnd].
  apply elem_of_cons in Hin as [<-|Hin].
  - by rewrite bool_decide_true.
  - rewrite bool_decide_false; [by apply IH|].
    intros Heq. apply Hnot. rewrite Heq. apply list_elem_of_fmap. eauto.
Qed.

(** X5. In every world the application reaches, a stored donation is the
    one its id selects and, when it has a token, the one its token selects:
    no two rows share an id or a token. *)
Theorem stored_donation_is_selected numeric_text w d :
  Sql.keeps_text numeric_text →
  reachable numeric_text w →
  d ∈ donations w →
  select_by_id (Donation.id d) (donations w) = Some d
  ∧ (∀ token, Donation.token d = Some token →
       select_by_token token (donations w) = Some d)
  ∧ (∀ r, r ∈ donations w →
       Donation.id r = Donation.id d
       ∨ (Donation.token r = Donation.token d
          ∧ is_Some (Donation.token d)) →
       r = d).
Proof.
  intros Hk Hr Hin.
  destruct (reachable_consistent _ _ Hk Hr) as [Hids Htok _ _].
  assert (∀ token, Donation.token d = Some token →
            select_by_token token (donations w) = Some d) as Hsel.
  { intros token Ht. by apply select_by_token_unique. }
  split_and!; [by apply select_by_id_unique | exact Hsel |].
  intros r Hrin [Hid | [Ht [token Hd]]].
  - pose proof (select_by_id_unique _ _ Hids Hin) as H1.
    pose proof (select_by_id_unique _ _ Hids Hrin) as H2.
    rewrite Hid in H2. congruence.
  - pose proof (Hsel token Hd) as H1.
    assert (select_by_token token (donations w) = Some r) as H2.
    { apply select_by_token_unique; [done..|]. by rewrite Ht. }
    congruence.
Qed.

Lemma stored_donation_is_selected_witness :
  Sql.keeps_text decimal_text
  ∧ reachable decimal_text ana_world
  ∧ ana ∈ donations ana_world
  ∧ select_by_token "AAAAAAAAAAAAAAAA" (donations ana_world) = Some ana.
Proof.
  assert (ana ∈ donations ana_world) as Hin
    by (rewrite donations_ana_world; by left).
  split_and!;
    [apply decimal_text_keeps_text | apply reachable_ana_world | exact Hin |].
  exact (proj1 (proj2 (stored_donation_is_selected decimal_text ana_world ana
                         decimal_text_keeps_text reachable_ana_world Hin))
           "AAAAAAAAAAAAAAAA" eq_refl).
Defined.

Lemma rowids_bounded_serve numeric_text c request w :
  rowids_bounded w →
  rowids_bounded (serve numeric_text c request w).2
  ∧ (donations_seq w ≤ donations_seq (serve numeric_text c request w).2)%N.
Proof.
  unfold rowids_bounded. intros Hb.
  destruct c as [| | |now token_bytes|token|token|token|i|i|name]; simpl.
  - unfold login. destruct (Request.method request); [done|].
    by destruct (select_user _ _ (users w)).
  - unfold logout, login_required. by destruct (negb _).
  - unfold admin_list, login_required. by destruct (negb _).
  - destruct (decide (logged_in w ∧ Request.method request = POST))
      as [[Hlog Hpost]|Hno]; cycle 1.
    { by rewrite new_donation_not_post. }
    rewrite new_donation_post by done.
    destruct (Request.form request !! "donor_name"); [|done]. simpl.
    destruct (existsb _ (donations w)); [done|]. simpl.
    unfold next_rowid. split; [|lia].
    apply Forall_app. split.
    + eapply Forall_impl; [exact Hb|]. intros r Hr. simpl in Hr. lia.
    + apply Forall_singleton. simpl. unfold next_rowid. lia.
  - rewrite donation_qr_cases.
    destruct (qr_page_frame token w) as (Hd & Hs & _).
    destruct (bool_decide (logged_in w)); [|done].
    destruct (select_by_token token (donations w)); [|done]. cbn [snd].
    by rewrite Hd, Hs.
  - rewrite donation_print_cases.
    destruct (qr_page_frame token w) as (Hd & Hs & _).
    destruct (bool_decide (logged_in w)); [|done].
    destruct (select_by_token token (donations w)); [|done]. cbn [snd].
    by rewrite Hd, Hs.
  - unfold track_donation. by destruct (select_by_token _ _).
  - destruct (update_donation_frame numeric_text i request w)
      as (_ & _ & _ & _ & Hs & _). rewrite Hs. split; [|done].
    destruct (update_donation_donations numeric_text i request w)
      as [->|(d & name & phone & email & type & qty & dest & st & photo
              & _ & _ & _ & ->)]; [done|].
    apply Forall_fmap. eapply Forall_impl; [exact Hb|].
    intros r Hr. simpl. by rewrite set_columns_id.
  - rewrite delete_donation_cases.
    destruct (bool_decide (logged_in w)); [|done].
    destruct (bool_decide (_ = _)); [|done].
    destruct (select_by_id i (donations w)) as [d|]; [|done].
    destruct (bool_decide _); [|done]. simpl. split; [|done].
    rewrite Forall_forall in Hb |- *.
    intros r [_ Hr]%list_elem_of_filter. by apply Hb.
  - unfold uploaded_file. by destruct (upload_folder w !! name).
Qed.

Lemma reachable_rowids_bounded numeric_text w :
  reachable numeric_text w → rowids_bounded w.
Proof.
  intros Hr. induction Hr as [|w Hr IH|w c request Hr IH].
  - constructor.
  - unfold init_db. by destruct (List.find _ (users w)).
  - by apply rowids_bounded_serve.
Qed.

(** X6. A rowid is never given twice.  In every world the application
    reaches no donation has an id above the AUTOINCREMENT counter, no
    request lowers the counter, not even a delete, and a creation that goes
    through gives the new row the counter plus one, an id above that of
    every row the table holds. *)
Theorem rowid_never_reused numeric_text w :
  reachable numeric_text w →
  (∀ d, d ∈ donations w → (Donation.id d ≤ donations_seq w)%N)
  ∧ (∀ c request,
       (donations_seq w ≤ donations_seq (serve numeric_text c request w).2)%N)
  ∧ (∀ now token_bytes request w',
       new_donation numeric_text now token_bytes request w
       = (redirect (url_donation_qr (Some (generate_token token_bytes))), w')
       → ∃ d, donations w' = donations w ++ [d]
              ∧ Donation.id d = (donations_seq w + 1)%N
              ∧ donations_seq w' = Donation.id d
              ∧ ∀ r, r ∈ donations w → (Donation.id r < Donation.id d)%N).
Proof.
  intros Hr. pose proof (reachable_rowids_bounded _ _ Hr) as Hb.
  unfold rowids_bounded in Hb. rewrite Forall_forall in Hb.
  split_and!; [exact Hb | |].
  - intros c request. apply rowids_bounded_serve.
    unfold rowids_bounded. by rewrite Forall_forall.
  - intros now token_bytes request w' Hnew.
    destruct (decide (logged_in w)) as [Hlog|Hlog]; cycle 1.
    { unfold new_donation in Hnew.
      rewrite login_required_anonymous in Hnew by done. done. }
    destruct (Request.method request) eqn:Hm.
    { unfold new_donation in Hnew.
      rewrite login_required_logged_in in Hnew by done.
      rewrite Hm in Hnew. done. }
    rewrite new_donation_post in Hnew by done.
    destruct (Request.form request !! "donor_name") as [name|]; [|done].
    simpl in Hnew. destruct (existsb _ (donations w)); [done|].
    injection Hnew as <-. eexists. split; [reflexivity|]. simpl.
    assert (next_rowid (donations_seq w) (Donation.id <$> donations w)
            = (donations_seq w + 1)%N) as ->.
    { unfold next_rowid. f_equal. apply N.max_l.
      clear -Hb. induction (donations w) as [|r l IH]; csimpl; [lia|].
      assert (Donation.id r ≤ donations_seq w)%N by (apply Hb; left).
      assert (foldr N.max 0%N (Donation.id <$> l) ≤ donations_seq w)%N
        by (apply IH; intros x Hx; apply Hb; by right).
      lia. }
    split_and!; [done..|]. intros r Hrin. specialize (Hb r Hrin). lia.
Qed.

Lemma rowid_never_reused_witness :
  reachable decimal_text ana_world
  ∧ (∀ d, d ∈ donations ana_world
          → (Donation.id d ≤ donations_seq ana_world)%N).
Proof.
  split; [apply reachable_ana_world|].
  exact (proj1 (rowid_never_reused decimal_text ana_world
                  reachable_ana_world)).
Defined.

(** X7. What the templates are told about the session.  After a login
    that succeeds they see [logged_in = True] with the username and the
    role of the stored account.  In a consistent world a session that is
    not logged in shows neither a username nor a role. *)
Theorem inject_user_context_shows_session numeric_text request w :
  consistent numeric_text w →
  (∀ u, Request.method request = POST →
     select_user
       (Py.strip (default EmptyString (Request.form request !! "username")))
       (Py.strip (default EmptyString (Request.form request !! "password")))
       (users w) = Some u →
     inject_user_context (login request w).2
     = {| UserContext.logged_in := PyBool true;
          UserContext.current_user :=
            {| CurrentUser.username := py_of_text (User.username u);
               CurrentUser.role := py_of_text (User.role u) |} |})
  ∧ (¬ logged_in w →
     inject_user_context w
     = {| UserContext.logged_in := PyBool false;
          UserContext.current_user :=
            {| CurrentUser.username := PyNone;
               CurrentUser.role := PyNone |} |}).
Proof.
  intros Hw. split.
  - intros u Hpost Hsel. unfold login. rewrite Hpost, Hsel.
    unfold inject_user_context. simpl. by simplify_map_eq.
  - intros Hlog. destruct (session_logged_in _ _ Hw) as [Hs|Hs].
    + unfold inject_user_context. by rewrite Hs, !lookup_empty.
    + destruct Hlog. unfold logged_in. by rewrite Hs.
Qed.

Lemma inject_user_context_shows_session_witness :
  consistent decimal_text anonymous_world
  ∧ UserContext.logged_in (inject_user_context anonymous_world)
    = PyBool false.
Proof.
  assert (consistent decimal_text anonymous_world) as Hw.
  { apply reachable_consistent; [apply decimal_text_keeps_text|].
    apply (reachable_serve _ _ call_logout), reachable_ana_world. }
  split; [exact Hw|].
  rewrite (proj2 (inject_user_context_shows_session decimal_text
                    (get "/" []) anonymous_world Hw)); [done|].
  by vm_compute.
Defined.

(** ** QR images *)

Lemma string_length_append (s t : string) :
  String.length (s +:+ t) = (String.length s + String.length t)%nat.
Proof. induction s as [|c s IH]; [done|]. rewrite append_cons. simpl. lia. Qed.

Lemma append_inj_r (s t u : string) : s +:+ u = t +:+ u → s = t.
Proof.
  revert t. induction s as [|c s IH]; intros t Heq.
  - destruct t as [|x t]; [done|].
    apply (f_equal String.length) in Heq.
    rewrite append_nil, append_cons in Heq. simpl in Heq.
    rewrite string_length_append in Heq. lia.
  - destruct t as [|x t].
    + apply (f_equal String.length) in Heq.
      rewrite append_nil, append_cons in Heq. simpl in Heq.
      rewrite string_length_append in Heq. lia.
    + rewrite !append_cons in Heq. injection Heq as -> Heq.
      f_equal. by apply IH.
Qed.

Lemma qr_name_inj token token' : qr_name token = qr_name token' → token = token'.
Proof.
  unfold qr_name. rewrite !append_cons, !append_nil.
  intros [= Heq]. by apply append_inj_r in Heq.
Qed.

(** X8. [generate_qr_for_token] names the image after the token, and two
    tokens never give the same name: drawing the image of one token writes
    the tracking URL of that token under its name and leaves the image of
    every other token as it was. *)
Theorem generate_qr_for_token_keeps_others token w :
  (generate_qr_for_token token w).1 = qr_name token
  ∧ qr_folder (generate_qr_for_token token w).2 !! qr_name token
    = Some (url_track_donation token)
  ∧ (∀ token', (generate_qr_for_token token' w).1 = qr_name token →
       token' = token)
  ∧ (∀ token', token' ≠ token →
       qr_folder (generate_qr_for_token token w).2 !! qr_name token'
       = qr_folder w !! qr_name token').
Proof.
  split_and!.
  - done.
  - simpl. apply lookup_insert_eq.
  - intros token' Heq. by apply qr_name_inj.
  - intros token' Hne. simpl. apply lookup_insert_ne.
    intros Heq. apply Hne. symmetry. by apply qr_name_inj.
Qed.

(** X9. The QR page and the print page draw the image only when it is
    missing.  For a logged-in session and a token a donation has, both
    render that donation with the name of the image; when the file is
    there the world is left as it is, the file not redrawn, and when it is
    missing the file appears with the tracking URL of the token while the
    tables stay the same.  For a token no donation has, both answer 404
    and draw nothing. *)
Theorem qr_pages_draw_when_missing token request w :
  logged_in w →
  (∀ d, select_by_token token (donations w) = Some d →
     (donation_qr token request w).1
     = render_template
         (donation_qr_html d (qr_name token) (url_track_donation token))
     ∧ (donation_print token request w).1
       = render_template
           (donation_print_html d (qr_name token) (url_track_donation token))
     ∧ (donation_print token request w).2 = (donation_qr token request w).2
     ∧ (is_Some (qr_folder w !! qr_name token) →
        (donation_qr token request w).2 = w)
     ∧ (qr_folder w !! qr_name token = None →
        qr_folder (donation_qr token request w).2
        = <[qr_name token := url_track_donation token]> (qr_folder w))
     ∧ donations (donation_qr token request w).2 = donations w)
  ∧ (select_by_token token (donations w) = None →
     donation_qr token request w = (abort 404, w)
     ∧ donation_print token request w = (abort 404, w)).
Proof.
  intros Hlog. rewrite donation_qr_cases, donation_print_cases.
  rewrite bool_decide_true by done. split.
  - intros d ->. cbn [fst snd]. split_and!; try done.
    + intros His. by rewrite bool_decide_true.
    + intros Hnone. rewrite bool_decide_false; [done|].
      rewrite Hnone. by intros [? ?].
    + by destruct (bool_decide _).
  - by intros ->.
Qed.

Lemma qr_pages_draw_when_missing_witness :
  logged_in ana_world
  ∧ donation_qr "AAAAAAAAAAAAAAAA" (get "/donation/AAAAAAAAAAAAAAAA/qr" [])
      ana_world
    = (render_template
         (donation_qr_html ana "qr_AAAAAAAAAAAAAAAA.png"
            (url_track_donation "AAAAAAAAAAAAAAAA")), ana_world).
Proof.
  split; [apply logged_in_ana_world|].
  destruct (proj1 (qr_pages_draw_when_missing "AAAAAAAAAAAAAAAA"
                     (get "/donation/AAAAAAAAAAAAAAAA/qr" []) ana_world
                     logged_in_ana_world) ana)
    as (Hresp & _ & _ & Hw & _); [by vm_compute|].
  apply injective_projections; [exact Hresp|].
  apply Hw. vm_compute. eauto.
Defined.

(** ** Uploaded photos *)

Lemma any_char_append p (s t : string) :
  Py.any_char p (s +:+ t) = Py.any_char p s || Py.any_char p t.
Proof.
  induction s as [|c s IH]; [done|]. rewrite append_cons. simpl.
  by rewrite IH, orb_assoc.
Qed.

Lemma rfind_from_ge c s i found :
  (found ≤ i)%Z → (found ≤ Py.rfind_from c s i found)%Z.
Proof.
  revert i found. induction s as [|x s IH]; intros i found Hle; simpl; [lia|].
  destruct (Ascii.eqb x c).
  - etransitivity; [|apply IH]; lia.
  - apply IH. lia.
Qed.

(** No occurrence of the character lies after the index [rfind] gives. *)
Lemma rfind_from_last c s i found (n : nat) :
  (found < i)%Z →
  (Py.rfind_from c s i found < i + Z.of_nat n)%Z →
  Py.any_char (λ x, Ascii.eqb x c) (Py.drop_str n s) = false.
Proof.
  revert i found n. induction s as [|x s IH]; intros i found n Hlt Hr.
  { by destruct n. }
  simpl in Hr. destruct n as [|n].
  - simpl. destruct (Ascii.eqb x c) eqn:Hx.
    + pose proof (rfind_from_ge c s (i + 1) i). lia.
    + simpl. apply (IH (i + 1)%Z found 0%nat); lia.
  - simpl. destruct (Ascii.eqb x c).
    + apply (IH (i + 1)%Z i n); lia.
    + apply (IH (i + 1)%Z found n); lia.
Qed.

Lemma splitext_ext_no_slash p : has_slash (Py.splitext p).2 = false.
Proof.
  unfold Py.splitext.
  destruct (_ && _) eqn:Hc; [|done]. simpl.
  apply andb_true_iff in Hc as [Hlt _]. apply Z.ltb_lt in Hlt.
  unfold has_slash, Py.slice_from.
  apply (rfind_from_last "/" p 0 (-1)); [lia|].
  pose proof (rfind_from_ge "/" p 0 (-1)). unfold Py.rfind in *.
  rewrite Z2Nat.id; lia.
Qed.

Lemma lower_char_slash c :
  Ascii.eqb (Py.lower_char c) "/" = Ascii.eqb c "/".
Proof. by destruct c as [[] [] [] [] [] [] [] []]. Qed.

Lemma lower_no_slash s : has_slash (Py.lower s) = has_slash s.
Proof.
  unfold has_slash. induction s as [|c s IH]; [done|]. simpl.
  by rewrite lower_char_slash, IH.
Qed.

Lemma pretty_N_go_no_slash (x : N) s :
  has_slash s = false → has_slash (pretty_N_go x s) = false.
Proof.
  revert s. induction (N.lt_wf_0 x) as [x _ IH]. intros s Hs.
  destruct (decide (x = 0)%N) as [->|Hx].
  - by rewrite pretty_N_go_0.
  - rewrite pretty_N_go_step by lia. apply IH.
    + apply N.div_lt; lia.
    + unfold has_slash in *. simpl. rewrite Hs, orb_false_r.
      generalize (x `mod` 10)%N. intros m.
      destruct m as [|p]; [done|].
      do 4 (destruct p as [p|p|]; try done).
Qed.

Lemma pretty_N_no_slash (x : N) : has_slash (pretty x) = false.
Proof.
  unfold pretty, pretty_N. destruct (decide (x = 0)%N); [done|].
  by apply pretty_N_go_no_slash.
Qed.

Lemma upload_name_no_slash i photo : has_slash (upload_name i photo) = false.
Proof.
  unfold upload_name, has_slash. rewrite !any_char_append.
  fold (has_slash (pretty i)). rewrite pretty_N_no_slash.
  fold (has_slash (Py.lower (Py.splitext (filename photo)).2)).
  by rewrite lower_no_slash, splitext_ext_no_slash.
Qed.

(** X10. Whatever file name the browser sends, [update_donation] saves the
    photo under a name without path separator: every name an update adds
    to the upload folder is [donation_<id><ext>] for the id of the URL and
    holds no slash, so the file lands in the upload folder itself. *)
Theorem update_saves_inside_upload_folder numeric_text i request w name :
  let w' := (update_donation numeric_text i request w).2 in
  upload_folder w !! name = None →
  is_Some (upload_folder w' !! name) →
  has_slash name = false
  ∧ ∃ photo, photo_supplied request = Some photo
             ∧ name = upload_name i photo
             ∧ upload_folder w' !! name = Some (stream photo).
Proof.
  simpl. intros Hnone His.
  destruct (update_donation_frame numeric_text i request w)
    as (_ & _ & _ & _ & _ & [Heq | (photo & Hphoto & Heq)]);
    rewrite Heq in His |- *.
  - rewrite Hnone in His. by destruct His.
  - destruct (decide (upload_name i photo = name)) as [<-|Hne].
    + split; [apply upload_name_no_slash|].
      exists photo. by rewrite lookup_insert_eq.
    + rewrite lookup_insert_ne, Hnone in His by done. by destruct His.
Qed.

Lemma update_saves_inside_upload_folder_witness :
  upload_folder ana_world !! "donation_1.jpg" = None
  ∧ has_slash "donation_1.jpg" = false
  ∧ upload_folder
      (update_donation decimal_text 1
         (post_photo "/admin/update/1" [("donor_name", "Ana")]
            {| filename := "../../etc/Entrega.JPG"; stream := [xff; xd8] |})
         ana_world).2 !! "donation_1.jpg"
    = Some [xff; xd8].
Proof.
  assert (upload_folder ana_world !! "donation_1.jpg" = None) as Hnone
    by (by vm_compute).
  destruct (update_saves_inside_upload_folder decimal_text 1
              (post_photo "/admin/update/1" [("donor_name", "Ana")]
                 {| filename := "../../etc/Entrega.JPG";
                    stream := [xff; xd8] |})
              ana_world "donation_1.jpg" Hnone)
    as (Hslash & photo & _ & _ & _); [vm_compute; eauto|].
  split_and!; [exact Hnone | exact Hslash | by vm_compute].
Defined.



(** X12. The photo is written before the UPDATE runs.  When the UPDATE is
    refused (the donation is Registrada and the form has no donor name) the
    view raises and the table is as before, yet a photo that came with the
    request is in the upload folder under the name of the donation, where
    it replaces the file an earlier upload left under that name. *)
Theorem refused_update_keeps_file numeric_text i request w d :
  logged_in w → Request.method request = POST →
  select_by_id i (donations w) = Some d →
  Donation.status d = Some "Registrada" →
  Request.form request !! "donor_name" = None →
  let response := (update_donation numeric_text i request w).1 in
  let w' := (update_donation numeric_text i request w).2 in
  response = raised IntegrityError_not_null_donor_name
  ∧ donations w' = donations w
  ∧ (∀ photo, photo_supplied request = Some photo →
       upload_folder w' !! upload_name i photo = Some (stream photo))
  ∧ (photo_supplied request = None → w' = w).
Proof.
  intros Hlog Hpost Hsel Hst Hname. simpl.
  rewrite (update_donation_post _ _ _ _ d) by done.
  rewrite bool_decide_true by done. rewrite Hname. simpl.
  split_and!; [done| | |].
  - by destruct (photo_supplied request).
  - intros photo ->. simpl. apply lookup_insert_eq.
  - by intros ->.
Qed.

Lemma refused_update_keeps_file_witness :
  logged_in ana_world
  ∧ select_by_id 1 (donations ana_world) = Some ana
  ∧ donations
      (update_donation decimal_text 1
         (post_photo "/admin/update/1" [("status", "Entregada")] foto)
         ana_world).2
    = donations ana_world
  ∧ upload_folder
      (update_donation decimal_text 1
         (post_photo "/admin/update/1" [("status", "Entregada")] foto)
         ana_world).2 !! "donation_1.jpg"
    = Some (stream foto).
Proof.
  assert (select_by_id 1 (donations ana_world) = Some ana) as Hsel
    by (by vm_compute).
  destruct (refused_update_keeps_file decimal_text 1
              (post_photo "/admin/update/1" [("status", "Entregada")] foto)
              ana_world ana logged_in_ana_world eq_refl Hsel eq_refl eq_refl)
    as (_ & Hd & Hup & _).
  split_and!; [apply logged_in_ana_world | exact Hsel | exact Hd |].
  specialize (Hup foto eq_refl).
  change (upload_name 1 foto) with "donation_1.jpg" in Hup. exact Hup.
Defined.

(** ** Deleting, again *)

Lemma token_owner_unique ds d r token :
  NoDup (omap Donation.token ds) → d ∈ ds → r ∈ ds →
  Donation.token d = Some token → Donation.token r = Some token → r = d.
Proof.
  intros Hnd Hd Hr Htd Htr.
  pose proof (select_by_token_unique _ _ _ Hnd Hd Htd).
  pose proof (select_by_token_unique _ _ _ Hnd Hr Htr). congruence.
Qed.

(** X13. After the administrator has deleted a donation, the public
    tracking page of its token answers 404 and the id selects nothing.
    The delete takes the row and nothing else: the QR image, the uploaded
    photos, the users, the session and the AUTOINCREMENT counter are as
    before. *)
Theorem deleted_donation_is_gone numeric_text i request request' w d token :
  consistent numeric_text w →
  logged_in w → session w !! "role" = Some (PyStr "admin") →
  select_by_id i (donations w) = Some d →
  Donation.status d = Some "Registrada" →
  Donation.token d = Some token →
  let w' := (delete_donation i request w).2 in
  track_donation token request' w' = (abort 404, w')
  ∧ select_by_id i (donations w') = None
  ∧ qr_folder w' = qr_folder w
  ∧ upload_folder w' = upload_folder w
  ∧ users w' = users w
  ∧ session w' = session w
  ∧ donations_seq w' = donations_seq w.
Proof.
  intros Hw Hlog Hrole Hsel Hst Htok. simpl.
  rewrite delete_donation_cases.
  rewrite !bool_decide_true by done. rewrite Hsel.
  rewrite bool_decide_true by done. simpl.
  split_and!; try done; [|apply select_by_id_filter_eq].
  unfold track_donation. simpl.
  rewrite select_by_token_None; [done|].
  intros r [Hid Hr]%list_elem_of_filter Hrt.
  apply select_by_id_Some in Hsel as [Hd <-].
  apply Hid. f_equal.
  by apply (token_owner_unique (donations w) d r token (tokens_unique _ _ Hw)).
Qed.

Lemma deleted_donation_is_gone_witness :
  consistent decimal_text ana_world
  ∧ logged_in ana_world
  ∧ session ana_world !! "role" = Some (PyStr "admin")
  ∧ select_by_id 1 (donations ana_world) = Some ana
  ∧ (track_donation "AAAAAAAAAAAAAAAA" (get "/track/AAAAAAAAAAAAAAAA" [])
       (delete_donation 1 (post "/admin/delete/1" []) ana_world).2).1
    = abort 404.
Proof.
  assert (session ana_world !! "role" = Some (PyStr "admin")) as Hrole
    by (by vm_compute).
  assert (select_by_id 1 (donations ana_world) = Some ana) as Hsel
    by (by vm_compute).
  split_and!; [apply consistent_ana_world | apply logged_in_ana_world
               | exact Hrole | exact Hsel |].
  by rewrite (proj1 (deleted_donation_is_gone decimal_text 1
                       (post "/admin/delete/1" [])
                       (get "/track/AAAAAAAAAAAAAAAA" []) ana_world ana
                       "AAAAAAAAAAAAAAAA" consistent_ana_world
                       logged_in_ana_world Hrole Hsel eq_refl eq_refl)).
Defined.

(** X14. The status is free text and nothing makes it move one way only.
    An accepted update whose form carries the status "Registrada" puts the
    donation back in the initial state whatever its status was: the
    administrator can delete it right after, and the next update applies
    the descriptive fields of its form again. *)
Theorem status_can_return_to_registrada numeric_text i request request' w d :
  logged_in w → session w !! "role" = Some (PyStr "admin") →
  Request.method request = POST →
  select_by_id i (donations w) = Some d →
  update_accepted request d →
  Request.form request !! "status" = Some "Registrada" →
  let w1 := (update_donation numeric_text i request w).2 in
  Donation.status <$> select_by_id i (donations w1)
  = Some (Some "Registrada")
  ∧ (delete_donation i request' w1).1 = redirect url_admin_list
  ∧ select_by_id i (donations (delete_donation i request' w1).2) = None
  ∧ (∀ request2 name,
       Request.method request2 = POST →
       Request.form request2 !! "donor_name" = Some name →
       Donation.donor_name
         <$> select_by_id i
               (donations (update_donation numeric_text i request2 w1).2)
       = Some name).
Proof.
  intros Hlog Hrole Hpost Hsel Hacc Hstatus. simpl.
  pose proof (select_by_id_Some _ _ _ Hsel) as [_ Hid].
  destruct (update_donation_frame numeric_text i request w)
    as (_ & _ & Hses & _).
  assert (∃ d1, select_by_id i
                  (donations (update_donation numeric_text i request w).2)
                = Some d1
                ∧ Donation.status d1 = Some "Registrada") as (d1 & Hsel1 & Hst1).
  { rewrite (update_donation_post _ _ _ _ d) by done.
    destruct (decide (Donation.status d = Some "Registrada")) as [Hst|Hst].
    - rewrite bool_decide_true by done.
      destruct (Hacc Hst) as [name ->]. simpl.
      rewrite select_by_id_rewritten, Hsel. simpl.
      rewrite bool_decide_true by done. eauto.
    - rewrite bool_decide_false by done. simpl.
      rewrite select_by_id_rewritten, Hsel. simpl.
      rewrite bool_decide_true by done. eauto. }
  assert (logged_in (update_donation numeric_text i request w).2) as Hlog1
    by (unfold logged_in; by rewrite Hses).
  split_and!.
  - by rewrite Hsel1, <- Hst1.
  - rewrite delete_donation_cases. rewrite bool_decide_true by done.
    rewrite Hses, bool_decide_true by done. rewrite Hsel1.
    by rewrite bool_decide_true.
  - rewrite delete_donation_cases. rewrite bool_decide_true by done.
    rewrite Hses, bool_decide_true by done. rewrite Hsel1.
    rewrite bool_decide_true by done. simpl. apply select_by_id_filter_eq.
  - intros request2 name Hpost2 Hname.
    pose proof (select_by_id_Some _ _ _ Hsel1) as [_ Hid1].
    rewrite (update_donation_post _ _ _ _ d1) by done.
    rewrite bool_decide_true by done. rewrite Hname. simpl.
    rewrite select_by_id_rewritten, Hsel1. simpl.
    by rewrite bool_decide_true.
Qed.

Lemma status_can_return_to_registrada_witness :
  logged_in delivered_world
  ∧ session delivered_world !! "role" = Some (PyStr "admin")
  ∧ Donation.status <$> select_by_id 1 (donations delivered_world)
    = Some (Some "Entregada")
  ∧ select_by_id 1
      (donations
         (delete_donation 1 (post "/admin/delete/1" [])
            (update_donation decimal_text 1
               (post "/admin/update/1" [("status", "Registrada")])
               delivered_world).2).2)
    = None.
Proof.
  assert (logged_in delivered_world) as Hlog by (by vm_compute).
  assert (session delivered_world !! "role" = Some (PyStr "admin")) as Hrole
    by (by vm_compute).
  assert (select_by_id 1 (donations delivered_world)
          = Some (set_columns decimal_text "Ana" None None None
                    (Sql.Integer 0) None (Some "Entregada") None ana))
    as Hsel by (by vm_compute).
  split_and!; [exact Hlog | exact Hrole | by rewrite Hsel |].
  refine (proj1 (proj2 (proj2 (status_can_return_to_registrada decimal_text 1
            (post "/admin/update/1" [("status", "Registrada")])
            (post "/admin/delete/1" []) delivered_world _
            Hlog Hrole eq_refl Hsel _ eq_refl)))).
  intros Hst. by vm_compute in Hst.
Defined.

(** ** Creating, again *)

(** X15. A donation that was just created is on show at once: the QR page
    of its token renders the new row with the image drawn at creation and
    has nothing left to draw, and the public tracking page renders the same
    row, in the state "Registrada". *)
Theorem created_donation_is_shown numeric_text now token_bytes request
    request' w name :
  logged_in w → Request.method request = POST →
  Request.form request !! "donor_name" = Some name →
  let token := generate_token token_bytes in
  (∀ d, d ∈ donations w → Donation.token d ≠ Some token) →
  let w' := (new_donation numeric_text now token_bytes request w).2 in
  ∃ d, donations w' = donations w ++ [d]
       ∧ Donation.status d = Some "Registrada"
       ∧ donation_qr token request' w'
         = (render_template
              (donation_qr_html d (qr_name token) (url_track_donation token)),
            w')
       ∧ track_donation token request' w'
         = (render_template
              (track_html d (url_track_donation token)
                 (url_whatsapp (url_track_donation token))), w').
Proof.
  intros Hlog Hpost Hname token Hfresh. simpl.
  rewrite new_donation_post by done. rewrite Hname. simpl.
  destruct (existsb _ (donations w)) eqn:Htaken.
  { apply token_taken_iff in Htaken as (d & Hin & Hd).
    by destruct (Hfresh d Hin). }
  simpl. eexists. split_and!; [reflexivity | done | |].
  - rewrite donation_qr_cases.
    rewrite bool_decide_true by done. simpl.
    rewrite select_by_token_last by done.
    fold token. unfold qr_name. rewrite lookup_insert_eq.
    by rewrite bool_decide_true by eauto.
  - unfold track_donation. simpl. by rewrite select_by_token_last.
Qed.

Lemma created_donation_is_shown_witness :
  logged_in admin_world
  ∧ (∀ d, d ∈ donations admin_world →
          Donation.token d ≠ Some (generate_token all_zero))
  ∧ track_donation "AAAAAAAAAAAAAAAA" (get "/track/AAAAAAAAAAAAAAAA" [])
      ana_world
    = (render_template
         (track_html ana (url_track_donation "AAAAAAAAAAAAAAAA")
            (url_whatsapp (url_track_donation "AAAAAAAAAAAAAAAA"))),
       ana_world).
Proof.
  assert (logged_in admin_world) as Hlog by (by vm_compute).
  assert (∀ d, d ∈ donations admin_world →
               Donation.token d ≠ Some (generate_token all_zero)) as Hfresh
    by (intros d []%elem_of_nil).
  split_and!; [exact Hlog | exact Hfresh |].
  destruct (created_donation_is_shown decimal_text "2025-03-01 10:00:00"
              all_zero (post "/new" [("donor_name", "Ana")])
              (get "/track/AAAAAAAAAAAAAAAA" []) admin_world "Ana"
              Hlog eq_refl eq_refl Hfresh) as (d & Hd & _ & _ & Htrack).
  fold ana_world in Hd, Htrack. rewrite donations_ana_world in Hd.
  change (donations admin_world) with (@nil Donation.t) in Hd.
  injection Hd as <-. exact Htrack.
Defined.

(** X16. [new_donation] needs the key [donor_name] in the form and nothing
    more of it.  Without the key the INSERT is refused on NOT NULL and the
    world is unchanged: no row, and no QR image although a token was drawn.
    With the key and an empty value, and a token that is free, the row is
    stored with the empty name. *)
Theorem create_needs_only_the_key numeric_text now token_bytes request w :
  logged_in w → Request.method request = POST →
  (Request.form request !! "donor_name" = None →
   new_donation numeric_text now token_bytes request w
   = (raised IntegrityError_not_null_donor_name, w))
  ∧ (Request.form request !! "donor_name" = Some EmptyString →
     (∀ d, d ∈ donations w →
           Donation.token d ≠ Some (generate_token token_bytes)) →
     ∃ d, donations
            (new_donation numeric_text now token_bytes request w).2
          = donations w ++ [d]
          ∧ Donation.donor_name d = EmptyString).
Proof.
  intros Hlog Hpost. rewrite new_donation_post by done. split.
  - by intros ->.
  - intros -> Hfresh. simpl.
    destruct (existsb _ (donations w)) eqn:Htaken.
    { apply token_taken_iff in Htaken as (d & Hin & Hd).
      by destruct (Hfresh d Hin). }
    simpl. by eexists.
Qed.

Lemma create_needs_only_the_key_witness :
  logged_in ana_world
  ∧ new_donation decimal_text "2025-03-02 09:00:00" all_one
      (post "/new" [("donor_phone", "555")]) ana_world
    = (raised IntegrityError_not_null_donor_name, ana_world).
Proof.
  split; [apply logged_in_ana_world|].
  apply (proj1 (create_needs_only_the_key decimal_text "2025-03-02 09:00:00"
                  all_one (post "/new" [("donor_phone", "555")]) ana_world
                  logged_in_ana_world eq_refl)).
  by vm_compute.
Defined.

(** ** Unknown ids *)



(** ** Sessions *)

(** X18. A login that succeeds opens every view behind [login_required]:
    the session it leaves is logged in, so the decorator runs the view
    itself.  The redirect goes to the [next] argument when it is there and
    not empty, to the panel otherwise.  A logout of that session empties
    it, after which it is not logged in and holds no role. *)
Theorem login_opens_views request request' w u :
  Request.method request = POST →
  select_user
    (Py.strip (default EmptyString (Request.form request !! "username")))
    (Py.strip (default EmptyString (Request.form request !! "password")))
    (users w) = Some u →
  let w1 := (login request w).2 in
  logged_in w1
  ∧ (∀ f, login_required f request' w1 = f request' w1)
  ∧ (∀ next, Request.args request !! "next" = Some next →
       next ≠ EmptyString → (login request w).1 = redirect (url_given next))
  ∧ (Request.args request !! "next" = None
     ∨ Request.args request !! "next" = Some EmptyString →
     (login request w).1 = redirect url_admin_list)
  ∧ logout request' w1
    = (redirect (url_login None), set_session ∅ w1)
  ∧ ¬ logged_in (logout request' w1).2
  ∧ session (logout request' w1).2 !! "role" = None.
Proof.
  intros Hpost Hsel. simpl.
  assert (logged_in (login request w).2) as Hlog.
  { unfold login. rewrite Hpost, Hsel. unfold logged_in. simpl.
    by simplify_map_eq. }
  assert (logout request' (login request w).2
          = (redirect (url_login None), set_session ∅ (login request w).2))
    as Hout.
  { unfold logout. by rewrite login_required_logged_in. }
  split_and!.
  - exact Hlog.
  - intros f. by apply login_required_logged_in.
  - intros next Hnext Hne. unfold login. rewrite Hpost, Hsel, Hnext.
    by destruct next.
  - intros [Hnext|Hnext]; unfold login; by rewrite Hpost, Hsel, Hnext.
  - exact Hout.
  - rewrite Hout. by vm_compute.
  - by rewrite Hout.
Qed.

Lemma login_opens_views_witness :
  select_user "admin" "agape2025" (users (init_db empty_world))
  = Some {| User.id := 1; User.username := Some "admin";
            User.password := Some "agape2025"; User.role := Some "admin" |}
  ∧ logged_in admin_world.
Proof.
  split; [by vm_compute|].
  exact (proj1 (login_opens_views
                  (post "/login"
                     [("username", "admin"); ("password", "agape2025")])
                  (get "/" []) (init_db empty_world) _ eq_refl eq_refl)).
Defined.

(** ** Searching, again *)

Lemma like_percent_more p v :
  Sql.like_match p v = true → Sql.like_match (String "%" p) v = true.
Proof. intros H. by rewrite like_percent, H. Qed.

Lemma like_all_percent q v :
  all_percent q = true → Sql.like_match ("%" +:+ q +:+ "%") v = true.
Proof.
  intros Hq. rewrite append_cons, append_nil. apply like_percent_more.
  induction q as [|c q IH]; [done|].
  rewrite append_cons. destruct q as [|c' q].
  - simpl in Hq. apply Ascii.eqb_eq in Hq as ->.
    rewrite append_nil. apply like_percent_more, like_percent_all.
  - cbn [all_percent] in Hq. apply andb_true_iff in Hq as [Hc Hq].
    apply Ascii.eqb_eq in Hc as ->. apply like_percent_more. by apply IH.
Qed.

Lemma filter_all {A} (P : A → Prop) `{∀ x, Decision (P x)} (l : list A) :
  (∀ x, x ∈ l → P x) → filter P l = l.
Proof.
  induction l as [|x l IH]; intros Hall; [done|].
  rewrite filter_cons, decide_True by (apply Hall; left).
  f_equal. apply IH. intros y Hy. apply Hall. by right.
Qed.

(** X19. The search box does not escape the wildcards of LIKE.  With no
    status filter, a search text made of [%] only lists every donation of
    the table, just as an empty or blank search text does: the donor name
    is never NULL and the pattern matches any text.  The panel only reads:
    the world is unchanged. *)
Theorem percent_search_lists_everything request w :
  logged_in w →
  let q := Py.strip (default EmptyString (Request.args request !! "q")) in
  let status_filter :=
    Py.strip (default EmptyString (Request.args request !! "status")) in
  q = EmptyString ∨ all_percent q = true →
  status_filter = EmptyString →
  ∃ rows,
    admin_list request w
    = (render_template (admin_list_html rows q status_filter), w)
    ∧ rows ≡ₚ donations w.
Proof.
  intros Hlog q status_filter Hq Hsf.
  unfold admin_list. rewrite login_required_logged_in by done.
  fold q. fold status_filter. cbv zeta.
  eexists. split; [reflexivity|].
  unfold order_by_created_at_desc, select_where.
  rewrite merge_sort_Permutation.
  rewrite filter_all; [done|].
  intros d _. apply (admin_list_where q status_filter d).
  unfold listed. rewrite Hsf. simpl. rewrite andb_true_r.
  destruct Hq as [->|Hq]; [done|].
  apply orb_true_iff. right.
  unfold matches_query, searched_columns. cbn [existsb Col.get].
  by rewrite like_all_percent.
Qed.

Lemma percent_search_lists_everything_witness :
  logged_in ana_world
  ∧ all_percent "%%" = true
  ∧ ∃ rows,
      admin_list (get "/" [("q", " %% ")]) ana_world
      = (render_template (admin_list_html rows "%%" EmptyString), ana_world)
      ∧ rows ≡ₚ donations ana_world.
Proof.
  split_and!; [apply logged_in_ana_world | done |].
  exact (percent_search_lists_everything (get "/" [("q", " %% ")]) ana_world
           logged_in_ana_world (or_intror eq_refl) eq_refl).
Defined.
